(** * The two Envoy WASM interceptors of the PEP demo

    A shallow embedding of [wasm/server-filter/main.go] (the ingress
    interceptor, running on service-b's sidecar) and of the client filter
    (the egress interceptor, running on service-a's sidecar), together with
    the part of the proxy-wasm host they talk to.

    - Go strings are byte strings: [string].
    - The host (Envoy behind the proxy-wasm Go SDK) is an explicit state
      [proxywasm.Host]: the request header map, the response buffer of the
      callout being delivered, and a log of the effects the filters asked
      for (dispatched calls, synthesized responses, resumptions).
    - [encoding/json] is a library outside the repository: the filters are
      parameterised by its two entry points.
    - The decision logic of [services/sgnl-pdp/main.go] and the token
      reader of [services/service-b/main.go] are embedded too, to follow a
      request from one interceptor to the other and on to its verdict.
    - Logging calls ([proxywasm.LogInfof], [proxywasm.LogErrorf]) have no
      effect on the request and are left out. *)

From Stdlib Require Import String Ascii List ZArith Bool Lia.
Import ListNotations.
Open Scope string_scope.

(** ** Go values shared by both filters *)

(** A Go [(T, error)] result; the error is kept as its message. *)
Inductive result (A : Type) : Type :=
| Ok (a : A)
| Err (msg : string).
Arguments Ok {A} a.
Arguments Err {A} msg.

(** The double quote character, and a string between double quotes. *)
Definition dq : string := String "034"%char EmptyString.
Definition quoted (s : string) : string := dq ++ s ++ dq.

(** ** The functions of Go's [strings] package that the filters call *)
Module strings.

(** [strings.HasPrefix(s, prefix)] *)
Definition HasPrefix (s pre : string) : bool := String.prefix pre s.

(** [strings.TrimPrefix(s, prefix)] *)
Definition TrimPrefix (s pre : string) : string :=
  if HasPrefix s pre
  then substring (String.length pre) (String.length s - String.length pre) s
  else s.

(** [strings.Index(s, substr)], with [None] for Go's [-1]. *)
Definition Index (s substr : string) : option nat := String.index 0 substr s.

(** The scan behind [strings.Split]: [skip] counts the bytes of a
    separator still to be passed over, [cur] is the piece being built. *)
Fixpoint split_from (sep : string) (skip : nat) (cur s : string) : list string :=
  match s with
  | EmptyString => [cur]
  | String c s' =>
      match skip with
      | S k => split_from sep k cur s'
      | O =>
          if String.prefix sep s
          then cur :: split_from sep (String.length sep - 1) "" s'
          else split_from sep 0 (cur ++ String c "") s'
      end
  end.

(** The number of dots in [s]. *)
Fixpoint dots (s : string) : nat :=
  match s with
  | EmptyString => 0
  | String c s' => (if Ascii.eqb c "." then 1 else 0) + dots s'
  end.

(** [strings.Split(s, sep)] for a non-empty [sep] (both call sites pass a
    literal): the pieces between the leftmost non-overlapping separators. *)
Definition Split (s sep : string) : list string := split_from sep 0 "" s.

End strings.

(** ** The proxy-wasm host *)
Module proxywasm.

(** [types.Action] *)
Inductive Action : Type := ActionContinue | ActionPause.

Definition Headers : Type := list (string * string).

(** One call handed to [DispatchHttpCall]. *)
Record HttpCall : Type := mkHttpCall {
  call_cluster : string;
  call_headers : Headers;
  call_body : string;
  call_trailers : Headers;
  call_timeout : Z
}.

(** One response handed to [SendHttpResponse]. *)
Record LocalResponse : Type := mkLocalResponse {
  resp_status : Z;
  resp_headers : Headers;
  resp_body : string;
  resp_grpc_status : Z
}.

Record Host : Type := mkHost {
  request_headers : Headers;          (* header map of the intercepted request *)
  response_headers : option Headers;  (* header map of its response, once there is one *)
  upstream_clusters : list string;    (* clusters the host can dispatch to *)
  next_callout : Z;                   (* identifier of the next accepted call *)
  call_response_body : option string; (* body buffer of the callout being delivered *)
  dispatched : list HttpCall;         (* calls accepted so far *)
  local_responses : list LocalResponse; (* synthesized responses sent so far *)
  resumes : nat                       (* calls to ResumeHttpRequest so far *)
}.

Definition with_request_headers (hs : Headers) (h : Host) : Host :=
  mkHost hs (response_headers h) (upstream_clusters h) (next_callout h) (call_response_body h)
         (dispatched h) (local_responses h) (resumes h).

(** Header names are matched without regard to ASCII case. *)
Definition lower_ascii (c : ascii) : ascii :=
  let n := nat_of_ascii c in
  if andb (Nat.leb 65 n) (Nat.leb n 90) then ascii_of_nat (n + 32) else c.

Fixpoint lower (s : string) : string :=
  match s with
  | EmptyString => EmptyString
  | String c s' => String (lower_ascii c) (lower s')
  end.

Definition name_eqb (a b : string) : bool := String.eqb (lower a) (lower b).

(** [GetHttpRequestHeader(key)]: the first value under [key]; an error
    ([None]) when the map has no such entry. *)
Fixpoint lookup (key : string) (hs : Headers) : option string :=
  match hs with
  | [] => None
  | (k, v) :: hs' => if name_eqb k key then Some v else lookup key hs'
  end.

Definition GetHttpRequestHeader (key : string) (h : Host) : option string :=
  lookup key (request_headers h).

(** [GetHttpResponseHeader(key)]: likewise on the response; an error too
    when there is no response yet. *)
Definition GetHttpResponseHeader (key : string) (h : Host) : option string :=
  match response_headers h with
  | Some hs => lookup key hs
  | None => None
  end.

(** [AddHttpRequestHeader(key, value)]: one more entry, after the others.
    The request header map is there while the request is held, so this
    and the replacement below are taken to succeed; the filters do no more
    than log when they do not. *)
Definition AddHttpRequestHeader (key value : string) (h : Host) : Host :=
  with_request_headers (request_headers h ++ [(key, value)])%list h.

(** The entries whose name is not [key]. *)
Definition others (key : string) (hs : Headers) : Headers :=
  filter (fun kv => negb (name_eqb (fst kv) key)) hs.

(** [ReplaceHttpRequestHeader(key, value)]: the entries under [key] give
    way to a single one. *)
Definition ReplaceHttpRequestHeader (key value : string) (h : Host) : Host :=
  with_request_headers (others key (request_headers h) ++ [(key, value)])%list h.

Definition uint32_wrap (z : Z) : Z := Z.modulo z (2 ^ 32).

(** [DispatchHttpCall(cluster, headers, body, trailers, timeout)]: the
    host refuses a cluster it does not know; otherwise it records the call
    and returns its identifier. *)
Definition DispatchHttpCall (cluster : string) (headers : Headers) (body : string)
           (trailers : Headers) (timeout : Z) (h : Host) : option Z * Host :=
  if existsb (String.eqb cluster) (upstream_clusters h)
  then (Some (next_callout h),
        mkHost (request_headers h) (response_headers h) (upstream_clusters h)
               (uint32_wrap (next_callout h + 1)) (call_response_body h)
               (dispatched h ++ [mkHttpCall cluster headers body trailers timeout])%list
               (local_responses h) (resumes h))
  else (None, h).

(** [GetHttpCallResponseBody(start, maxSize)]: an error ([None]) when the
    host holds no response body for the callout. *)
Definition GetHttpCallResponseBody (start maxSize : nat) (h : Host) : option string :=
  option_map (substring start maxSize) (call_response_body h).

(** [SendHttpResponse(status, headers, body, grpcStatus)] *)
Definition SendHttpResponse (status : Z) (headers : Headers) (body : string)
           (grpc : Z) (h : Host) : Host :=
  mkHost (request_headers h) (response_headers h) (upstream_clusters h) (next_callout h)
         (call_response_body h) (dispatched h)
         (local_responses h ++ [mkLocalResponse status headers body grpc])%list
         (resumes h).

(** [ResumeHttpRequest()] *)
Definition ResumeHttpRequest (h : Host) : Host :=
  mkHost (request_headers h) (response_headers h) (upstream_clusters h) (next_callout h)
         (call_response_body h) (dispatched h) (local_responses h)
         (S (resumes h)).

(** The host makes the outcome of a callout available before it runs the
    callback: a response body, or none (reset, nothing received). *)
Definition deliver (body : option string) (h : Host) : Host :=
  mkHost (request_headers h) (response_headers h) (upstream_clusters h) (next_callout h)
         body (dispatched h) (local_responses h) (resumes h).

(** The size the host announces to the callback: the length of the body it
    holds, zero when it holds none. *)
Definition response_size (h : Host) : nat :=
  match call_response_body h with
  | Some b => String.length b
  | None => 0
  end.

(** Terminal states of the request, read off the host: a synthesized
    response was sent ([Terminated]) or the request was resumed
    ([Resumed]). *)
Definition terminated (h : Host) : bool :=
  match local_responses h with [] => false | _ :: _ => true end.
Definition resumed (h : Host) : bool :=
  match resumes h with O => false | S _ => true end.
Definition terminal (h : Host) : bool := terminated h || resumed h.

End proxywasm.

(** ** The ingress interceptor: [wasm/server-filter/main.go] *)
Module ServerFilter.
Import proxywasm.

Definition pdpServiceCluster : string := "sgnl-pdp-service".
Definition pdpServicePath : string := "/access/v2/evaluations".

Record httpContext : Type := mkContext {
  contextID : Z;
  calloutID : Z;
  jwtToken : string;
  principalID : string;
  assetID : string;
  requestPath : string;
  requestMethod : string
}.

Definition set_requestPath (v : string) (c : httpContext) : httpContext :=
  mkContext (contextID c) (calloutID c) (jwtToken c) (principalID c) (assetID c)
            v (requestMethod c).
Definition set_requestMethod (v : string) (c : httpContext) : httpContext :=
  mkContext (contextID c) (calloutID c) (jwtToken c) (principalID c) (assetID c)
            (requestPath c) v.
Definition set_jwtToken (v : string) (c : httpContext) : httpContext :=
  mkContext (contextID c) (calloutID c) v (principalID c) (assetID c)
            (requestPath c) (requestMethod c).
Definition set_principalID (v : string) (c : httpContext) : httpContext :=
  mkContext (contextID c) (calloutID c) (jwtToken c) v (assetID c)
            (requestPath c) (requestMethod c).
Definition set_assetID (v : string) (c : httpContext) : httpContext :=
  mkContext (contextID c) (calloutID c) (jwtToken c) (principalID c) v
            (requestPath c) (requestMethod c).
Definition set_calloutID (v : Z) (c : httpContext) : httpContext :=
  mkContext (contextID c) v (jwtToken c) (principalID c) (assetID c)
            (requestPath c) (requestMethod c).

(** The PDP API structures. *)
Record Principal : Type := mkPrincipal { ID : string }.
Record Query : Type := mkQuery { AssetID : string; Action_ : string }.
Record EvaluationRequest : Type := mkEvaluationRequest {
  Principal_ : Principal;
  Queries : list Query
}.
Record Decision : Type := mkDecision { Decision_ : string; Reason : string }.
Record EvaluationResponse : Type := mkEvaluationResponse { Decisions : list Decision }.

(** The claims map built by [parseJWTClaims]: every value stored in it is
    a string, so the type assertion [.(string)] succeeds exactly on the
    keys that are present. *)
Definition Claims : Type := list (string * string).

Fixpoint claim (key : string) (cs : Claims) : option string :=
  match cs with
  | [] => None
  | (k, v) :: cs' => if String.eqb k key then Some v else claim key cs'
  end.

(** [sendUnauthorizedResponse]: a 401 with the body [{"error":"<message>"}]. *)
Definition unauthorized_body (message : string) : string :=
  "{" ++ quoted "error" ++ ":" ++ quoted message ++ "}".

Definition sendUnauthorizedResponse (message : string) (h : Host) : Host :=
  SendHttpResponse 401 [("content-type", "application/json")]
                   (unauthorized_body message) (-1) h.

(** [sendForbiddenResponse]: a 403 with the body
    [{"error":"<message>","pdp_response":{"decision":"Deny","reason":"<reason>"}}]. *)
Definition forbidden_body (message reason : string) : string :=
  "{" ++ quoted "error" ++ ":" ++ quoted message ++ ","
      ++ quoted "pdp_response" ++ ":{" ++ quoted "decision" ++ ":" ++ quoted "Deny" ++ ","
      ++ quoted "reason" ++ ":" ++ quoted reason ++ "}}".

Definition sendForbiddenResponse (message reason : string) (h : Host) : Host :=
  SendHttpResponse 403 [("content-type", "application/json")]
                   (forbidden_body message reason) (-1) h.

(** [extractSubFromPath]: the [X-Service-ID] header when it is there and
    not empty, ["service-a"] otherwise; the path is not looked at. *)
Definition extractSubFromPath (path : string) (h : Host) : string :=
  match GetHttpRequestHeader "X-Service-ID" h with
  | Some serviceID => if String.eqb serviceID "" then "service-a" else serviceID
  | None => "service-a"
  end.

(** [parseJWTClaims]: the token must split into three parts at the dots;
    the claims are then made up from the request, not from the token. *)
Definition parseJWTClaims (ctx : httpContext) (token : string) (h : Host)
  : result Claims :=
  let parts := strings.Split token "." in
  if negb (Nat.eqb (List.length parts) 3)
  then Err "invalid JWT format"
  else Ok [("sub", extractSubFromPath (requestPath ctx) h)].

(** [extractAssetFromPath]: what follows the first [asset=], up to the
    next [&]. *)
Definition extractAssetFromPath (path : string) : string :=
  let parts := strings.Split path "asset=" in
  if Nat.ltb (List.length parts) 2
  then ""
  else
    let asset := nth 1 parts "" in
    match strings.Index asset "&" with
    | Some idx => substring 0 idx asset
    | None => asset
    end.

(** The headers of the callout to the PDP. *)
Definition pdp_call_headers : Headers :=
  [(":method", "POST"); (":path", pdpServicePath);
   (":authority", "sgnl-pdp-service:8082"); ("content-type", "application/json")].

Section WithJson.

(** [json.Marshal] at [EvaluationRequest] and [json.Unmarshal] at
    [EvaluationResponse]. *)
Variable json_Marshal : EvaluationRequest -> result string.
Variable json_Unmarshal : string -> result EvaluationResponse.

(** [OnHttpRequestHeaders]: the context and the host after the call,
    and the action returned to the host. *)
Definition OnHttpRequestHeaders (ctx : httpContext) (numHeaders : nat)
           (endOfStream : bool) (h : Host) : httpContext * Host * Action :=
  match GetHttpRequestHeader ":path" h with
  | None => (ctx, h, ActionContinue)
  | Some path =>
    let ctx := set_requestPath path ctx in
    match GetHttpRequestHeader ":method" h with
    | None => (ctx, h, ActionContinue)
    | Some method =>
      let ctx := set_requestMethod method ctx in
      match GetHttpRequestHeader "Authorization" h with
      | None =>
          (ctx, sendUnauthorizedResponse "Missing Authorization header" h, ActionPause)
      | Some authHeader =>
        if String.eqb authHeader "" then
          (ctx, sendUnauthorizedResponse "Missing Authorization header" h, ActionPause)
        else if negb (strings.HasPrefix authHeader "Bearer ") then
          (ctx, sendUnauthorizedResponse "Invalid Authorization header format" h,
           ActionPause)
        else
          let ctx := set_jwtToken (strings.TrimPrefix authHeader "Bearer ") ctx in
          match parseJWTClaims ctx (jwtToken ctx) h with
          | Err e =>
              (ctx, sendUnauthorizedResponse ("Invalid JWT: " ++ e) h, ActionPause)
          | Ok claims =>
            match claim "sub" claims with
            | None =>
                (ctx, sendUnauthorizedResponse "JWT missing 'sub' claim" h, ActionPause)
            | Some sub =>
              if String.eqb sub "" then
                (ctx, sendUnauthorizedResponse "JWT missing 'sub' claim" h, ActionPause)
              else
                let ctx := set_principalID sub ctx in
                let ctx := set_assetID (extractAssetFromPath path) ctx in
                let ctx := if String.eqb (assetID ctx) ""
                           then set_assetID "default-asset" ctx else ctx in
                let evalRequest :=
                  mkEvaluationRequest (mkPrincipal (principalID ctx))
                                      [mkQuery (assetID ctx) "call"] in
                match json_Marshal evalRequest with
                | Err _ =>
                    (ctx, sendUnauthorizedResponse "Internal error" h, ActionPause)
                | Ok requestBody =>
                  match DispatchHttpCall pdpServiceCluster pdp_call_headers
                                         requestBody [] 5000 h with
                  | (None, h') =>
                      (ctx, sendForbiddenResponse "Policy evaluation failed" "" h',
                       ActionPause)
                  | (Some id, h') => (set_calloutID id ctx, h', ActionPause)
                  end
                end
            end
          end
      end
    end
  end.

(** [OnHttpCallResponse]: the host after the callback (the context is
    only read). *)
Definition OnHttpCallResponse (ctx : httpContext)
           (numHeaders bodySize numTrailers : nat) (h : Host) : Host :=
  match GetHttpCallResponseBody 0 bodySize h with
  | None => sendForbiddenResponse "Policy evaluation failed" "" h
  | Some responseBody =>
    match json_Unmarshal responseBody with
    | Err _ => sendForbiddenResponse "Policy evaluation failed" "" h
    | Ok evalResp =>
      match Decisions evalResp with
      | [] => sendForbiddenResponse "Policy evaluation failed" "" h
      | decision :: _ =>
        if negb (String.eqb (Decision_ decision) "Allow") then
          sendForbiddenResponse "Access denied by policy" (Reason decision) h
        else
          let h := AddHttpRequestHeader "X-PDP-Decision" "Allow" h in
          let h := AddHttpRequestHeader "X-PDP-Reason" (Reason decision) h in
          let h := AddHttpRequestHeader "X-Principal-ID" (principalID ctx) h in
          ResumeHttpRequest h
      end
    end
  end.

(** The life of one request context as the host drives it: the request
    headers are delivered once; each later event is the delivery of a
    callout outcome (its body, or none) to the callback. *)
Fixpoint callbacks (ctx : httpContext) (outcomes : list (option string)) (h : Host)
  : Host :=
  match outcomes with
  | [] => h
  | o :: rest =>
      let h := deliver o h in
      callbacks ctx rest (OnHttpCallResponse ctx 0 (response_size h) 0 h)
  end.

Definition lifecycle (ctx : httpContext) (numHeaders : nat) (endOfStream : bool)
           (outcomes : list (option string)) (h : Host) : Host :=
  let '(ctx', h', _) := OnHttpRequestHeaders ctx numHeaders endOfStream h in
  callbacks ctx' outcomes h'.

End WithJson.

End ServerFilter.

(** ** The egress interceptor: the client filter *)
Module ClientFilter.
Import proxywasm.

Definition jwtVendingServiceCluster : string := "jwt-vending-service".
Definition jwtVendingServicePath : string := "/token/valid".

Record httpContext : Type := mkContext {
  contextID : Z;
  token : string
}.

(** The JWT vending service response. *)
Record TokenResponse : Type := mkTokenResponse {
  Token : string;
  ExpiresIn : Z
}.

(** The body of the issuance request: [{"service_id":"service-a"}]. *)
Definition requestBody : string :=
  "{" ++ quoted "service_id" ++ ":" ++ quoted "service-a" ++ "}".

Definition vending_call_headers : Headers :=
  [(":method", "POST"); (":path", jwtVendingServicePath);
   (":authority", "jwt-vending-service:8081"); ("content-type", "application/json")].

(** [OnHttpRequestHeaders]: the host after the call and the action
    returned to it (the context is not written). *)
Definition OnHttpRequestHeaders (ctx : httpContext) (numHeaders : nat)
           (endOfStream : bool) (h : Host) : Host * Action :=
  match GetHttpRequestHeader ":authority" h with
  | None => (h, ActionContinue)
  | Some authority =>
    if andb (negb (String.eqb authority "service-b:8083"))
            (negb (String.eqb authority "service-b"))
    then (h, ActionContinue)
    else
      match DispatchHttpCall jwtVendingServiceCluster vending_call_headers
                             requestBody [] 5000 h with
      | (None, h') => (h', ActionContinue)
      | (Some _, h') => (h', ActionPause)
      end
  end.

(** [OnHttpResponseHeaders]: reads the status for the log and lets the
    response through. *)
Definition OnHttpResponseHeaders (ctx : httpContext) (numHeaders : nat)
           (endOfStream : bool) (h : Host) : Host * Action :=
  match GetHttpResponseHeader ":status" h with
  | Some status => (h, ActionContinue)
  | None => (h, ActionContinue)
  end.

Section WithJson.

(** [json.Unmarshal] at [TokenResponse]. *)
Variable json_Unmarshal : string -> result TokenResponse.

(** [handleJWTResponse]: the callback registered with the dispatch. *)
Definition handleJWTResponse (ctx : httpContext)
           (numHeaders bodySize numTrailers : nat) (h : Host) : Host :=
  match GetHttpCallResponseBody 0 bodySize h with
  | None => ResumeHttpRequest h
  | Some responseBody =>
    match json_Unmarshal responseBody with
    | Err _ => ResumeHttpRequest h
    | Ok tokenResp =>
      if String.eqb (Token tokenResp) "" then ResumeHttpRequest h
      else
        let authHeader := "Bearer " ++ Token tokenResp in
        let h := ReplaceHttpRequestHeader "Authorization" authHeader h in
        ResumeHttpRequest h
    end
  end.

(** The life of one request context: the headers once, then callout
    outcomes delivered to the registered callback. *)
Fixpoint callbacks (ctx : httpContext) (outcomes : list (option string)) (h : Host)
  : Host :=
  match outcomes with
  | [] => h
  | o :: rest =>
      let h := deliver o h in
      callbacks ctx rest (handleJWTResponse ctx 0 (response_size h) 0 h)
  end.

Definition lifecycle (ctx : httpContext) (numHeaders : nat) (endOfStream : bool)
           (outcomes : list (option string)) (h : Host) : Host :=
  callbacks ctx outcomes (fst (OnHttpRequestHeaders ctx numHeaders endOfStream h)).

End WithJson.

End ClientFilter.

(** ** Sample data: a JSON codec on a few bodies, requests and hosts *)
Module Sample.
Import proxywasm.

Fixpoint join (sep : string) (l : list string) : string :=
  match l with
  | [] => ""
  | [x] => x
  | x :: rest => x ++ sep ++ join sep rest
  end.

(** What [json.Marshal] writes for an [EvaluationRequest] whose strings
    need no escaping. *)
Definition render_query (q : ServerFilter.Query) : string :=
  "{" ++ quoted "assetId" ++ ":" ++ quoted (ServerFilter.AssetID q) ++ ","
      ++ quoted "action" ++ ":" ++ quoted (ServerFilter.Action_ q) ++ "}".

Definition Marshal (r : ServerFilter.EvaluationRequest) : result string :=
  Ok ("{" ++ quoted "principal" ++ ":{" ++ quoted "id" ++ ":"
          ++ quoted (ServerFilter.ID (ServerFilter.Principal_ r)) ++ "},"
          ++ quoted "queries" ++ ":["
          ++ join "," (map render_query (ServerFilter.Queries r)) ++ "]}").

Definition render_decision (d : ServerFilter.Decision) : string :=
  "{" ++ quoted "decision" ++ ":" ++ quoted (ServerFilter.Decision_ d) ++ ","
      ++ quoted "reason" ++ ":" ++ quoted (ServerFilter.Reason d) ++ "}".

Definition render_response (ds : list ServerFilter.Decision) : string :=
  "{" ++ quoted "decisions" ++ ":[" ++ join "," (map render_decision ds) ++ "]}".

Definition allow_x : ServerFilter.Decision :=
  ServerFilter.mkDecision "Allow" "Service service-a is allowed to access asset-x".
Definition deny_y : ServerFilter.Decision :=
  ServerFilter.mkDecision "Deny" "Service service-a is not allowed to access asset-y".

(** [json.Unmarshal] on the three PDP bodies of the samples; any other
    body is taken as malformed. *)
Definition UnmarshalEvaluation (body : string) : result ServerFilter.EvaluationResponse :=
  if String.eqb body (render_response [allow_x])
  then Ok (ServerFilter.mkEvaluationResponse [allow_x])
  else if String.eqb body (render_response [deny_y])
  then Ok (ServerFilter.mkEvaluationResponse [deny_y])
  else if String.eqb body (render_response [])
  then Ok (ServerFilter.mkEvaluationResponse [])
  else Err "invalid character looking for beginning of value".

Definition sample_token : string :=
  "eyJhbGciOiJSUzI1NiJ9.eyJzdWIiOiJzZXJ2aWNlLWEifQ.c2ln".

Definition render_token (tok : string) (expires : string) : string :=
  "{" ++ quoted "token" ++ ":" ++ quoted tok ++ ","
      ++ quoted "expires_in" ++ ":" ++ expires ++ "}".

(** [json.Unmarshal] on two issuer bodies: one with [sample_token], one
    with an empty token. *)
Definition UnmarshalToken (body : string) : result ClientFilter.TokenResponse :=
  if String.eqb body (render_token sample_token "300")
  then Ok (ClientFilter.mkTokenResponse sample_token 300)
  else if String.eqb body (render_token "" "0")
  then Ok (ClientFilter.mkTokenResponse "" 0)
  else Err "invalid character looking for beginning of value".

(** A host that has seen nothing yet of a request with headers [hs]. *)
Definition idle (hs : Headers) (clusters : list string) : Host :=
  mkHost hs None clusters 1 None [] [] 0.

Definition ingress_ctx : ServerFilter.httpContext :=
  ServerFilter.mkContext 7 0 "" "" "" "" "".
Definition egress_ctx : ClientFilter.httpContext :=
  ClientFilter.mkContext 7 "".

(** A CONNECT request: it has no [:path]. *)
Definition connect_request : Host :=
  idle [(":method", "CONNECT"); (":authority", "service-b:8083")]
       ["sgnl-pdp-service"].

(** A request with no credential. *)
Definition anonymous_request : Host :=
  idle [(":method", "GET"); (":path", "/process?asset=asset-x");
        (":authority", "service-b:8083")]
       ["sgnl-pdp-service"].

(** A request whose token has three parts, the middle one not base64url. *)
Definition garbled_token : string := "hdr.!!!.sig".
Definition garbled_request : Host :=
  idle [(":method", "GET"); (":path", "/process?asset=asset-x");
        (":authority", "service-b:8083");
        ("Authorization", "Bearer " ++ garbled_token)]
       ["sgnl-pdp-service"].

(** The same request on a host that cannot reach the PDP cluster. *)
Definition unreachable_pdp_request : Host :=
  idle [(":method", "GET"); (":path", "/process?asset=asset-x");
        (":authority", "service-b:8083");
        ("Authorization", "Bearer " ++ sample_token)]
       [].

(** A request from service-a with a token, and the context and host
    once [OnHttpRequestHeaders] has dispatched the call to the PDP and
    the host delivers its outcome. *)
Definition valid_request : Host :=
  idle [(":method", "GET"); (":path", "/process?asset=asset-x");
        (":authority", "service-b:8083");
        ("Authorization", "Bearer " ++ sample_token)]
       ["sgnl-pdp-service"].

Definition awaiting_ctx : ServerFilter.httpContext :=
  fst (fst (ServerFilter.OnHttpRequestHeaders Marshal ingress_ctx 4 true valid_request)).

Definition awaiting_pdp (body : option string) : Host :=
  deliver body
    (snd (fst (ServerFilter.OnHttpRequestHeaders Marshal ingress_ctx 4 true valid_request))).

(** Outbound requests seen by the egress interceptor. *)
Definition to_service_b : Host :=
  idle [(":method", "GET"); (":path", "/process?asset=asset-x");
        (":authority", "service-b:8083"); ("X-Service-ID", "service-a")]
       ["jwt-vending-service"].
Definition to_elsewhere : Host :=
  idle [(":method", "GET"); (":path", "/health");
        (":authority", "metrics:9090"); ("X-Service-ID", "service-a")]
       ["jwt-vending-service"].

Definition awaiting_token (body : option string) : Host :=
  deliver body (fst (ClientFilter.OnHttpRequestHeaders egress_ctx 4 true to_service_b)).

(** The PDP bodies of the samples, and the host after the callback has
    run once on an awaiting request, and once more on the result. *)
Definition allow_body : string := render_response [allow_x].
Definition deny_body : string := render_response [deny_y].
Definition empty_body : string := render_response [].

Definition pdp_callback (h : Host) : Host :=
  ServerFilter.OnHttpCallResponse UnmarshalEvaluation awaiting_ctx 0 (response_size h) 0 h.

Definition token_callback (h : Host) : Host :=
  ClientFilter.handleJWTResponse UnmarshalToken egress_ctx 0 (response_size h) 0 h.

Definition after_allow : Host := pdp_callback (awaiting_pdp (Some allow_body)).
Definition after_allow_again : Host := pdp_callback after_allow.
Definition after_deny : Host := pdp_callback (awaiting_pdp (Some deny_body)).
Definition after_deny_again : Host := pdp_callback after_deny.

(** The issuer bodies of the samples. *)
Definition token_body : string := render_token sample_token "300".
Definition empty_token_body : string := render_token "" "0".

End Sample.

(** ** The spec's reading of a token segment *)

(** Named after the spec's words (a Token is three dot-separated segments,
    each base64url-encoded); not taken from the code, which has no such
    check.  A segment with a byte outside the base64url alphabet cannot be
    decoded. *)
Definition spec_base64url_char (c : ascii) : bool :=
  let n := nat_of_ascii c in
  (Nat.leb 65 n && Nat.leb n 90) || (Nat.leb 97 n && Nat.leb n 122)
  || (Nat.leb 48 n && Nat.leb n 57) || Nat.eqb n 45 || Nat.eqb n 95.

Definition spec_base64url_segment (s : string) : bool :=
  forallb spec_base64url_char (list_ascii_of_string s).

(** ** What a handler did to the request, read off the host before and after *)
Module Outcome.
Import proxywasm.

(** One synthesized JSON response with [status] and [body] was sent; the
    request was not resumed and its headers were left alone. *)
Definition terminated_with (status : Z) (body : string) (h h' : Host) : Prop :=
  local_responses h' =
    (local_responses h
       ++ [mkLocalResponse status [("content-type", "application/json")] body (-1)])%list
  /\ request_headers h' = request_headers h
  /\ resumes h' = resumes h.

(** No call was handed to the host. *)
Definition no_dispatch (h h' : Host) : Prop := dispatched h' = dispatched h.

(** The request was resumed once, with no synthesized response. *)
Definition resumed_once (h h' : Host) : Prop :=
  resumes h' = S (resumes h) /\ local_responses h' = local_responses h.

(** The query the ingress interceptor builds for a request with path
    [path]: the principal of [extractSubFromPath], the resource of
    [extractAssetFromPath] or the default one, the action ["call"]. *)
Definition evaluation_request (path : string) (h : Host)
  : ServerFilter.EvaluationRequest :=
  let asset := ServerFilter.extractAssetFromPath path in
  ServerFilter.mkEvaluationRequest
    (ServerFilter.mkPrincipal (ServerFilter.extractSubFromPath path h))
    [ServerFilter.mkQuery (if String.eqb asset "" then "default-asset" else asset) "call"].

(** The three headers the ingress interceptor adds on [Allow]. *)
Definition decision_headers (reason principal : string) : Headers :=
  [("X-PDP-Decision", "Allow"); ("X-PDP-Reason", reason); ("X-Principal-ID", principal)].

End Outcome.

(** ** Occurrences in a string, to state what the parsers accept *)
Module Text.

(** Whether the byte [c] occurs in [s]. *)
Fixpoint has_byte (c : ascii) (s : string) : bool :=
  match s with
  | EmptyString => false
  | String b s' => Ascii.eqb b c || has_byte c s'
  end.

(** Whether [substr] occurs in [s], as [strings.Contains(s, substr)]. *)
Fixpoint Contains (s substr : string) : bool :=
  String.prefix substr s
  || match s with
     | EmptyString => false
     | String _ s' => Contains s' substr
     end.

(** [strings.Join(elems, sep)] *)
Fixpoint Join (elems : list string) (sep : string) : string :=
  match elems with
  | [] => ""
  | [x] => x
  | x :: rest => x ++ sep ++ Join rest sep
  end.

End Text.

(** ** The policy decision service: [services/sgnl-pdp/main.go] *)
Module PDP.
Import ServerFilter.

(** A Go map with string keys, as the pairs it was built from; [map_get] is
    the two-valued index expression [v, ok := m[key]]. *)
Fixpoint map_get {V : Type} (key : string) (m : list (string * V)) : option V :=
  match m with
  | [] => None
  | (k, v) :: m' => if String.eqb k key then Some v else map_get key m'
  end.

Definition policyRules : list (string * list (string * bool)) :=
  [("service-a", [("asset-x", true); ("asset-y", false)]);
   ("service-b", [("asset-x", true); ("asset-y", true)])].

(** [evaluateAccess]; the service declares the same [Decision],
    [EvaluationRequest] and [EvaluationResponse] structures as the filter. *)
Definition evaluateAccess (principalID assetID : string) : Decision :=
  match map_get principalID policyRules with
  | None =>
      mkDecision "Deny" ("Principal " ++ principalID ++ " not found in policy")
  | Some assetRules =>
      match map_get assetID assetRules with
      | None =>
          mkDecision "Deny" ("Asset " ++ assetID ++ " not found in policy for principal "
                                      ++ principalID)
      | Some allowed =>
          if allowed
          then mkDecision "Allow" ("Service " ++ principalID ++ " is allowed to access "
                                              ++ assetID)
          else mkDecision "Deny" ("Service " ++ principalID ++ " is not allowed to access "
                                             ++ assetID)
      end
  end.

(** What a handler wrote to its [http.ResponseWriter]: an [http.Error]
    with its message and status, or a value given to the JSON encoder
    under [Content-Type: application/json] (status 200). *)
Inductive Reply : Type :=
| HttpError (msg : string) (code : Z)
| EncodedJSON (resp : EvaluationResponse).

(** The loop of [handleEvaluation] over the queries, appending one
    decision at each turn. *)
Fixpoint evaluate_queries (principalID : string) (queries : list Query)
         (decisions : list Decision) : list Decision :=
  match queries with
  | [] => decisions
  | query :: rest =>
      if String.eqb (AssetID query) ""
      then evaluate_queries principalID rest
                            (decisions ++ [mkDecision "Deny" "assetId is required"])%list
      else evaluate_queries principalID rest
                            (decisions ++ [evaluateAccess principalID (AssetID query)])%list
  end.

(** The decision one turn of that loop appends. *)
Definition decision_for (principalID : string) (query : Query) : Decision :=
  if String.eqb (AssetID query) ""
  then mkDecision "Deny" "assetId is required"
  else evaluateAccess principalID (AssetID query).

Section WithJson.

(** [json.NewDecoder(r.Body).Decode] at [EvaluationRequest]. *)
Variable json_Decode : string -> result EvaluationRequest.

(** [handleEvaluation], on the method and the body of the request. *)
Definition handleEvaluation (method body : string) : Reply :=
  if negb (String.eqb method "POST") then HttpError "Method not allowed" 405
  else
    match json_Decode body with
    | Err _ => HttpError "Invalid request body" 400
    | Ok req =>
        if String.eqb (ID (Principal_ req)) "" then
          HttpError "principal.id is required" 400
        else if Nat.eqb (List.length (Queries req)) 0 then
          HttpError "At least one query is required" 400
        else
          EncodedJSON (mkEvaluationResponse
                         (evaluate_queries (ID (Principal_ req)) (Queries req) []))
    end.

End WithJson.

End PDP.

(** ** The callee application: [services/service-b/main.go] *)
Module ServiceB.

(** [r.Header.Get(key)]: the first value under [key], the empty string
    when there is none. *)
Definition Header_Get (key : string) (hs : proxywasm.Headers) : string :=
  match proxywasm.lookup key hs with
  | Some v => v
  | None => ""
  end.

(** [extractJWT], on the headers of the request. *)
Definition extractJWT (r_Header : proxywasm.Headers) : result string :=
  let authHeader := Header_Get "Authorization" r_Header in
  if String.eqb authHeader "" then Err "missing Authorization header"
  else
    let parts := strings.Split authHeader " " in
    if negb (Nat.eqb (List.length parts) 2) || negb (String.eqb (nth 0 parts "") "Bearer")
    then Err "invalid Authorization header format"
    else Ok (nth 1 parts "").

End ServiceB.

(** ** More sample data *)
Module Fixture.
Import proxywasm.

(** [json.Decode] on the one request body of the samples. *)
Definition sample_query : ServerFilter.EvaluationRequest :=
  ServerFilter.mkEvaluationRequest (ServerFilter.mkPrincipal "service-a")
                                   [ServerFilter.mkQuery "asset-x" "call"].

Definition sample_query_body : string :=
  match Sample.Marshal sample_query with
  | Ok b => b
  | Err _ => ""
  end.

(** The query for a request of service-a that names no resource. *)
Definition default_query : ServerFilter.EvaluationRequest :=
  ServerFilter.mkEvaluationRequest (ServerFilter.mkPrincipal "service-a")
                                   [ServerFilter.mkQuery "default-asset" "call"].

Definition default_query_body : string :=
  match Sample.Marshal default_query with
  | Ok b => b
  | Err _ => ""
  end.

Definition Decode (body : string) : result ServerFilter.EvaluationRequest :=
  if String.eqb body sample_query_body then Ok sample_query
  else if String.eqb body default_query_body then Ok default_query
  else Err "invalid character looking for beginning of value".

(** A PDP answer whose first decision is spelled in lower case, and
    [json.Unmarshal] on it and on the bodies of [Sample]. *)
Definition lowercase_first : list ServerFilter.Decision :=
  [ServerFilter.mkDecision "allow" "spelled otherwise"; Sample.allow_x].

Definition lowercase_body : string := Sample.render_response lowercase_first.

Definition Unmarshal (body : string) : result ServerFilter.EvaluationResponse :=
  if String.eqb body lowercase_body
  then Ok (ServerFilter.mkEvaluationResponse lowercase_first)
  else Sample.UnmarshalEvaluation body.

(** A request of service-a that names no resource. *)
Definition no_asset_request : Host :=
  Sample.idle [(":method", "GET"); (":path", "/process");
               (":authority", "service-b:8083");
               ("Authorization", "Bearer " ++ Sample.sample_token)]
              ["sgnl-pdp-service"].

(** An outbound request that carries a credential of its own. *)
Definition with_own_credential : Host :=
  Sample.idle [(":method", "GET"); (":path", "/process?asset=asset-x");
               (":authority", "service-b"); ("authorization", "Basic Zm9vOmJhcg==")]
              ["jwt-vending-service"].

End Fixture.

(** ** A principal with quotes in its name *)
Module Unescaped.
Import proxywasm.

(** Named after the spec's words (the body's [pdp_response.reason] field
    equals the reason): how a JSON reader takes a string literal, given the
    text after its opening quote; the value it reads and the text after the
    closing quote.  Not taken from the code, which never reads its own
    body. *)
Definition spec_json_escape (e : ascii) : option ascii :=
  if Ascii.eqb e "034" then Some "034"%char
  else if Ascii.eqb e "092" then Some "092"%char
  else if Ascii.eqb e "/" then Some "/"%char
  else if Ascii.eqb e "b" then Some "008"%char
  else if Ascii.eqb e "f" then Some "012"%char
  else if Ascii.eqb e "n" then Some "010"%char
  else if Ascii.eqb e "r" then Some "013"%char
  else if Ascii.eqb e "t" then Some "009"%char
  else None.

Fixpoint spec_json_string (s : string) : option (string * string) :=
  match s with
  | EmptyString => None
  | String c s' =>
      if Ascii.eqb c "034" then Some ("", s')
      else if Ascii.eqb c "092" then
        match s' with
        | EmptyString => None
        | String e s'' =>
            match spec_json_escape e, spec_json_string s'' with
            | Some x, Some (v, rest) => Some (String x v, rest)
            | _, _ => None
            end
        end
      else if Nat.ltb (nat_of_ascii c) 32 then None
      else
        match spec_json_string s' with
        | Some (v, rest) => Some (String c v, rest)
        | None => None
        end
  end.

(** What [encoding/json] writes inside a string literal for a quote or a
    backslash: the byte after a backslash. *)
Fixpoint escape (s : string) : string :=
  match s with
  | EmptyString => EmptyString
  | String c s' =>
      if Ascii.eqb c "034" || Ascii.eqb c "092"
      then String "092" (String c (escape s'))
      else String c (escape s')
  end.

(** The caller names itself [say "no"] in its X-Service-ID header. *)
Definition principal : string := "say " ++ quoted "no".

Definition request : Host :=
  Sample.idle [(":method", "GET"); (":path", "/process?asset=asset-x");
               (":authority", "service-b:8083");
               ("Authorization", "Bearer " ++ Sample.sample_token);
               ("X-Service-ID", principal)]
              ["sgnl-pdp-service"].

(** [json.Marshal] on a query, with the escapes. *)
Definition Marshal (r : ServerFilter.EvaluationRequest) : result string :=
  Ok ("{" ++ quoted "principal" ++ ":{" ++ quoted "id" ++ ":"
          ++ quoted (escape (ServerFilter.ID (ServerFilter.Principal_ r))) ++ "},"
          ++ quoted "queries" ++ ":["
          ++ Sample.join ","
               (map (fun q => "{" ++ quoted "assetId" ++ ":"
                                  ++ quoted (escape (ServerFilter.AssetID q)) ++ ","
                                  ++ quoted "action" ++ ":"
                                  ++ quoted (escape (ServerFilter.Action_ q)) ++ "}")
                    (ServerFilter.Queries r))
          ++ "]}").

(** The headers step on that request, and the body it dispatched. *)
Definition after_headers : ServerFilter.httpContext * Host * Action :=
  ServerFilter.OnHttpRequestHeaders Marshal Sample.ingress_ctx 5 true request.

Definition query_body : string :=
  match dispatched (snd (fst after_headers)) with
  | call :: _ => call_body call
  | [] => ""
  end.

(** The service decodes that body into the query it was made from. *)
Definition query : ServerFilter.EvaluationRequest :=
  ServerFilter.mkEvaluationRequest (ServerFilter.mkPrincipal principal)
                                   [ServerFilter.mkQuery "asset-x" "call"].

Definition Decode (body : string) : result ServerFilter.EvaluationRequest :=
  if String.eqb body query_body then Ok query
  else Err "invalid character looking for beginning of value".

(** The service's answer, and the body its encoder writes for it. *)
Definition answer : list ServerFilter.Decision :=
  match PDP.handleEvaluation Decode "POST" query_body with
  | PDP.EncodedJSON resp => ServerFilter.Decisions resp
  | PDP.HttpError _ _ => []
  end.

Definition answer_body : string :=
  "{" ++ quoted "decisions" ++ ":["
      ++ Sample.join ","
           (map (fun d => "{" ++ quoted "decision" ++ ":"
                              ++ quoted (escape (ServerFilter.Decision_ d)) ++ ","
                              ++ quoted "reason" ++ ":"
                              ++ quoted (escape (ServerFilter.Reason d)) ++ "}")
                answer)
      ++ "]}".

(** The interceptor parses that body back into the answer. *)
Definition Unmarshal (body : string) : result ServerFilter.EvaluationResponse :=
  if String.eqb body answer_body then Ok (ServerFilter.mkEvaluationResponse answer)
  else Err "invalid character looking for beginning of value".

(** The host once the callback has run on the answer. *)
Definition final : Host :=
  ServerFilter.OnHttpCallResponse Unmarshal (fst (fst after_headers))
    0 (String.length answer_body) 0
    (deliver (Some answer_body) (snd (fst after_headers))).

End Unescaped.

(** ** The ends of the ingress headers step *)
Module IngressEnds.
Import proxywasm ServerFilter Outcome.

Section WithJson.

Variable json_Marshal : EvaluationRequest -> result string.

(** The four ends of [OnHttpRequestHeaders]. *)
Inductive headers_end (ctx : httpContext) (h : Host) : httpContext * Host * Action -> Prop :=
| end_continue ctx' :
    headers_end ctx h (ctx', h, ActionContinue)
| end_unauthorized ctx' msg :
    In msg ["Missing Authorization header"; "Invalid Authorization header format";
            "Invalid JWT: invalid JWT format"; "Internal error"] ->
    headers_end ctx h (ctx', sendUnauthorizedResponse msg h, ActionPause)
| end_refused ctx' :
    headers_end ctx h (ctx', sendForbiddenResponse "Policy evaluation failed" "" h,
                       ActionPause)
| end_dispatched path method a body id h' :
    GetHttpRequestHeader ":path" h = Some path ->
    GetHttpRequestHeader ":method" h = Some method ->
    GetHttpRequestHeader "Authorization" h = Some a ->
    json_Marshal (evaluation_request path h) = Ok body ->
    DispatchHttpCall pdpServiceCluster pdp_call_headers body [] 5000 h = (Some id, h') ->
    headers_end ctx h
      (set_calloutID id
         (set_assetID (AssetID (hd (mkQuery "" "") (Queries (evaluation_request path h))))
            (set_principalID (ID (Principal_ (evaluation_request path h)))
               (set_jwtToken (strings.TrimPrefix a "Bearer ")
                  (set_requestMethod method (set_requestPath path ctx))))),
       h', ActionPause).

End WithJson.

End IngressEnds.

(** * The string functions on the inputs the filters meet *)
Section StringChecks.
Import strings.

Example Split_token : Split "hdr.payload.sig" "." = ["hdr"; "payload"; "sig"].
Proof. reflexivity. Qed.

Example Split_no_separator : Split "opaque" "." = ["opaque"].
Proof. reflexivity. Qed.

Example Split_empty : Split "" "." = [""].
Proof. reflexivity. Qed.

Example Split_adjacent_and_trailing : Split "a..b." "." = ["a"; ""; "b"; ""].
Proof. reflexivity. Qed.

Example Split_long_separator :
  Split "/p?asset=x&b=1&asset=z" "asset=" = ["/p?"; "x&b=1&"; "z"].
Proof. reflexivity. Qed.

Example TrimPrefix_bearer : TrimPrefix "Bearer a.b.c" "Bearer " = "a.b.c".
Proof. reflexivity. Qed.

Example TrimPrefix_absent : TrimPrefix "Basic Zm9v" "Bearer " = "Basic Zm9v".
Proof. reflexivity. Qed.

Example extractAssetFromPath_single :
  ServerFilter.extractAssetFromPath "/process?asset=asset-x" = "asset-x".
Proof. reflexivity. Qed.

Example extractAssetFromPath_more_parameters :
  ServerFilter.extractAssetFromPath "/process?asset=asset-y&trace=1" = "asset-y".
Proof. reflexivity. Qed.

Example extractAssetFromPath_absent : ServerFilter.extractAssetFromPath "/process" = "".
Proof. reflexivity. Qed.

(** Splitting at the dots yields one piece more than there are dots. *)
Lemma split_dot_length (s : string) :
  forall cur, List.length (split_from "." 0 cur s) = S (dots s).
Proof.
  induction s as [|c s IH]; intros cur; [reflexivity|].
  cbn [split_from String.prefix dots String.length Nat.sub].
  destruct (ascii_dec "."%char c) as [E|E].
  - subst c. replace (String.prefix "" s) with true by (now destruct s).
    cbn. now rewrite IH.
  - destruct (Ascii.eqb c ".") eqn:Ec.
    + apply Ascii.eqb_eq in Ec. congruence.
    + apply IH.
Qed.

(** A token splits into three parts exactly when it holds two dots. *)
Lemma Split_three_parts (token : string) :
  List.length (Split token ".") = 3 <-> dots token = 2.
Proof. unfold Split. rewrite split_dot_length. lia. Qed.

End StringChecks.

(** * Properties of the ingress interceptor *)
Section IngressProperties.
Import proxywasm ServerFilter Outcome.

Variable json_Marshal : EvaluationRequest -> result string.
Variable json_Unmarshal : string -> result EvaluationResponse.

Lemma unauthorized_outcome (msg : string) (h : Host) :
  terminated_with 401 (unauthorized_body msg) h (sendUnauthorizedResponse msg h)
  /\ no_dispatch h (sendUnauthorizedResponse msg h).
Proof. repeat split. Qed.

Lemma forbidden_outcome (msg reason : string) (h : Host) :
  terminated_with 403 (forbidden_body msg reason) h (sendForbiddenResponse msg reason h)
  /\ no_dispatch h (sendForbiddenResponse msg reason h).
Proof. repeat split. Qed.

Lemma string_app_assoc (a b c : string) : (a ++ b) ++ c = a ++ b ++ c.
Proof. induction a as [|x a IH]; cbn; [reflexivity|now rewrite IH]. Qed.

(** The body of a 403 response, with the reason set off from the text
    before and after it. *)
Lemma forbidden_body_reason (msg reason : string) :
  forbidden_body msg reason =
    ("{" ++ quoted "error" ++ ":" ++ quoted msg ++ ","
         ++ quoted "pdp_response" ++ ":{" ++ quoted "decision" ++ ":" ++ quoted "Deny"
         ++ "," ++ quoted "reason" ++ ":" ++ dq) ++ reason ++ dq ++ "}}".
Proof.
  unfold forbidden_body, quoted. rewrite !string_app_assoc. reflexivity.
Qed.

Lemma extractSubFromPath_nonempty (path : string) (h : Host) :
  String.eqb (extractSubFromPath path h) "" = false.
Proof.
  unfold extractSubFromPath.
  destruct (GetHttpRequestHeader "X-Service-ID" h) as [s|]; [|reflexivity].
  destruct (String.eqb s "") eqn:E; [reflexivity|exact E].
Qed.

Lemma HasPrefix_nonempty (a : string) :
  strings.HasPrefix a "Bearer " = true -> String.eqb a "" = false.
Proof. destruct a; [discriminate|reflexivity]. Qed.

(** A request without a readable [:path] or [:method] is let through
    before any credential check. *)
Lemma ingress_unreadable_request_continues (ctx : httpContext) (n : nat) (e : bool)
      (h : Host) :
  GetHttpRequestHeader ":path" h = None \/ GetHttpRequestHeader ":method" h = None ->
  exists ctx', OnHttpRequestHeaders json_Marshal ctx n e h = (ctx', h, ActionContinue).
Proof.
  intros H. unfold OnHttpRequestHeaders.
  destruct (GetHttpRequestHeader ":path" h) as [p|]; [|eexists; reflexivity].
  destruct H as [H|H]; [discriminate|]. rewrite H. eexists; reflexivity.
Qed.

(** The run of [OnHttpRequestHeaders] on a request that carries a Bearer
    token, up to the parse of the token. *)
Lemma ingress_bearer_request (ctx : httpContext) (n : nat) (e : bool) (h : Host)
      (path method a : string) :
  GetHttpRequestHeader ":path" h = Some path ->
  GetHttpRequestHeader ":method" h = Some method ->
  GetHttpRequestHeader "Authorization" h = Some a ->
  strings.HasPrefix a "Bearer " = true ->
  let tok := strings.TrimPrefix a "Bearer " in
  let ctx1 := set_jwtToken tok (set_requestMethod method (set_requestPath path ctx)) in
  OnHttpRequestHeaders json_Marshal ctx n e h =
    if negb (Nat.eqb (List.length (strings.Split tok ".")) 3)
    then (ctx1, sendUnauthorizedResponse "Invalid JWT: invalid JWT format" h, ActionPause)
    else
      let ctx2 := set_assetID
                    (let asset := extractAssetFromPath path in
                     if String.eqb asset "" then "default-asset" else asset)
                    (set_principalID (extractSubFromPath path h) ctx1) in
      match json_Marshal (evaluation_request path h) with
      | Err _ => (ctx2, sendUnauthorizedResponse "Internal error" h, ActionPause)
      | Ok body =>
          match DispatchHttpCall pdpServiceCluster pdp_call_headers body [] 5000 h with
          | (None, h') =>
              (ctx2, sendForbiddenResponse "Policy evaluation failed" "" h', ActionPause)
          | (Some id, h') => (set_calloutID id ctx2, h', ActionPause)
          end
      end.
Proof.
  intros Hp Hm Ha Hpre tok ctx1. unfold OnHttpRequestHeaders.
  rewrite Hp, Hm, Ha, (HasPrefix_nonempty a Hpre), Hpre. cbn [negb].
  unfold parseJWTClaims. cbn [jwtToken set_jwtToken]. fold tok.
  destruct (Nat.eqb (List.length (strings.Split tok ".")) 3); cbn [negb]; [|reflexivity].
  cbn [claim String.eqb Ascii.eqb Bool.eqb requestPath set_jwtToken set_requestMethod
       set_requestPath].
  rewrite extractSubFromPath_nonempty.
  unfold evaluation_request.
  cbn [assetID principalID set_assetID set_principalID set_jwtToken set_requestMethod
       set_requestPath].
  destruct (String.eqb (extractAssetFromPath path) ""); reflexivity.
Qed.

(** C6 (as amended). For every inbound request whose [:path] and
    [:method] can be read and whose Authorization header is missing, or
    present without the [Bearer ] prefix, [OnHttpRequestHeaders] pauses
    the request, sends one 401 response and hands no call to the host. *)
Theorem ingress_credential_missing_or_malformed :
  forall (ctx : httpContext) (n : nat) (e : bool) (h : Host) (path method : string),
    GetHttpRequestHeader ":path" h = Some path ->
    GetHttpRequestHeader ":method" h = Some method ->
    (GetHttpRequestHeader "Authorization" h = None \/
     exists a, GetHttpRequestHeader "Authorization" h = Some a
               /\ strings.HasPrefix a "Bearer " = false) ->
    let '(_, h', act) := OnHttpRequestHeaders json_Marshal ctx n e h in
    act = ActionPause
    /\ (exists msg, terminated_with 401 (unauthorized_body msg) h h')
    /\ no_dispatch h h'.
Proof.
  intros ctx n e h path method Hp Hm Ha. unfold OnHttpRequestHeaders. rewrite Hp, Hm.
  destruct Ha as [Ha | [a [Ha Hpre]]]; rewrite Ha.
  - split; [reflexivity|]. split; [eexists|]; apply unauthorized_outcome.
  - destruct (String.eqb a "").
    + split; [reflexivity|]. split; [eexists|]; apply unauthorized_outcome.
    + rewrite Hpre. cbn [negb].
      split; [reflexivity|]. split; [eexists|]; apply unauthorized_outcome.
Qed.

(** C1 (as amended). For every inbound request (with readable [:path] and
    [:method]) whose Authorization header carries a Bearer token, the
    interceptor checks the token by its shape only.  A token that does not
    split into exactly three parts at the dots ends the request with a
    401 response and no call to the PDP.  A token of three parts is
    accepted whatever its payload part holds: the principal is the
    [X-Service-ID] request header when present and not empty, and
    ["service-a"] otherwise, and once the query is marshalled and the host
    accepts the call, exactly that query is dispatched to the PDP and no
    response is sent. *)
Theorem ingress_token_checked_by_shape_only :
  forall (ctx : httpContext) (n : nat) (e : bool) (h : Host) (path method a : string),
    GetHttpRequestHeader ":path" h = Some path ->
    GetHttpRequestHeader ":method" h = Some method ->
    GetHttpRequestHeader "Authorization" h = Some a ->
    strings.HasPrefix a "Bearer " = true ->
    let tok := strings.TrimPrefix a "Bearer " in
    let '(ctx', h', act) := OnHttpRequestHeaders json_Marshal ctx n e h in
    act = ActionPause
    /\ (List.length (strings.Split tok ".") <> 3 ->
        terminated_with 401 (unauthorized_body "Invalid JWT: invalid JWT format") h h'
        /\ no_dispatch h h')
    /\ (List.length (strings.Split tok ".") = 3 ->
        principalID ctx' =
          match GetHttpRequestHeader "X-Service-ID" h with
          | Some s => if String.eqb s "" then "service-a" else s
          | None => "service-a"
          end
        /\ forall body,
            json_Marshal (evaluation_request path h) = Ok body ->
            existsb (String.eqb pdpServiceCluster) (upstream_clusters h) = true ->
            dispatched h' =
              (dispatched h
                 ++ [mkHttpCall pdpServiceCluster pdp_call_headers body [] 5000])%list
            /\ local_responses h' = local_responses h
            /\ resumes h' = resumes h
            /\ request_headers h' = request_headers h).
Proof.
  intros ctx n e h path method a Hp Hm Ha Hpre tok.
  rewrite (ingress_bearer_request ctx n e h path method a Hp Hm Ha Hpre).
  cbv zeta. fold tok.
  destruct (Nat.eqb (List.length (strings.Split tok ".")) 3) eqn:E; cbn [negb].
  - apply Nat.eqb_eq in E.
    destruct (json_Marshal (evaluation_request path h)) as [body|msg] eqn:EM.
    + unfold DispatchHttpCall.
      destruct (existsb (String.eqb pdpServiceCluster) (upstream_clusters h)) eqn:EC.
      * split; [reflexivity|]. split; [intros Hne; contradiction|].
        intros _. split; [reflexivity|].
        intros body' Hb _. injection Hb as <-. repeat split.
      * split; [reflexivity|]. split; [intros Hne; contradiction|].
        intros _. split; [reflexivity|]. intros body' _ Hc. discriminate.
    + split; [reflexivity|]. split; [intros Hne; contradiction|].
      intros _. split; [reflexivity|]. intros body' Hb. discriminate.
  - apply Nat.eqb_neq in E.
    split; [reflexivity|]. split; [intros _; apply unauthorized_outcome|].
    intros H3; contradiction.
Qed.

(** The callback hands no call to the host. *)
Lemma ingress_callback_no_dispatch (ctx : httpContext) (nH bs nT : nat) (h : Host) :
  dispatched (OnHttpCallResponse json_Unmarshal ctx nH bs nT h) = dispatched h.
Proof.
  unfold OnHttpCallResponse.
  destruct (GetHttpCallResponseBody 0 bs h) as [body|]; [|reflexivity].
  destruct (json_Unmarshal body) as [resp|]; [|reflexivity].
  destruct (Decisions resp) as [|d rest]; [reflexivity|].
  destruct (negb (String.eqb (Decision_ d) "Allow")); reflexivity.
Qed.

Lemma failed_body_bytes :
  let q := String "034"%char "" in
  forbidden_body "Policy evaluation failed" "" = "{" ++ q ++ "error" ++ q ++ ":" ++ q ++ "Policy evaluation failed" ++ q ++ "," ++ q ++ "pdp_response" ++ q ++ ":{" ++ q ++ "decision" ++ q ++ ":" ++ q ++ "Deny" ++ q ++ "," ++ q ++ "reason" ++ q ++ ":" ++ q ++ q ++ "}}".
Proof. reflexivity. Qed.

Lemma denied_body_bytes (reason : string) :
  let q := String "034"%char "" in
  forbidden_body "Access denied by policy" reason
  = ("{" ++ q ++ "error" ++ q ++ ":" ++ q ++ "Access denied by policy" ++ q ++ "," ++ q ++ "pdp_response" ++ q ++ ":{" ++ q ++ "decision" ++ q ++ ":" ++ q ++ "Deny" ++ q ++ "," ++ q ++ "reason" ++ q ++ ":" ++ q) ++ reason ++ q ++ "}}".
Proof. cbv zeta. rewrite forbidden_body_reason. reflexivity. Qed.

Lemma terminal_after_response (h h' : Host) (r : LocalResponse) :
  local_responses h' = (local_responses h ++ [r])%list -> terminal h' = true.
Proof.
  intros H. unfold terminal, terminated. rewrite H.
  now destruct (local_responses h).
Qed.

(** C2 (as amended). The callback has no guard on the state of the
    request: delivered to any context, terminal or not, it is carried out
    in full, leaves the context terminal and never dispatches.  When the
    answer cannot be read or parsed, or holds no decision, it sends one
    more 403 with the body for a failed evaluation; when the first decision
    is not [Allow], it sends one more 403 with the body for a denial and the
    decision's reason; in both cases it changes no request header and does
    not resume.  When the first decision is [Allow], it sends no response,
    appends the three decision headers once more and resumes once more. *)
Theorem ingress_callback_has_no_state_guard :
  forall (ctx : httpContext) (nH bs nT : nat) (h : Host),
    let q := String "034"%char "" in
    let h' := OnHttpCallResponse json_Unmarshal ctx nH bs nT h in
    no_dispatch h h'
    /\ terminal h' = true
    /\ (GetHttpCallResponseBody 0 bs h = None
        \/ (exists body msg,
               GetHttpCallResponseBody 0 bs h = Some body
               /\ json_Unmarshal body = Err msg)
        \/ (exists body resp,
               GetHttpCallResponseBody 0 bs h = Some body
               /\ json_Unmarshal body = Ok resp
               /\ Decisions resp = []) ->
        terminated_with 403
          ("{" ++ q ++ "error" ++ q ++ ":" ++ q ++ "Policy evaluation failed" ++ q ++ "," ++ q ++ "pdp_response" ++ q ++ ":{" ++ q ++ "decision" ++ q ++ ":" ++ q ++ "Deny" ++ q ++ "," ++ q ++ "reason" ++ q ++ ":" ++ q ++ q ++ "}}")
          h h')
    /\ (forall body resp d rest,
           GetHttpCallResponseBody 0 bs h = Some body ->
           json_Unmarshal body = Ok resp ->
           Decisions resp = d :: rest ->
           Decision_ d <> "Allow" ->
           terminated_with 403
             (("{" ++ q ++ "error" ++ q ++ ":" ++ q ++ "Access denied by policy" ++ q ++ "," ++ q ++ "pdp_response" ++ q ++ ":{" ++ q ++ "decision" ++ q ++ ":" ++ q ++ "Deny" ++ q ++ "," ++ q ++ "reason" ++ q ++ ":" ++ q)
                ++ Reason d ++ q ++ "}}")
             h h')
    /\ (forall body resp d rest,
           GetHttpCallResponseBody 0 bs h = Some body ->
           json_Unmarshal body = Ok resp ->
           Decisions resp = d :: rest ->
           Decision_ d = "Allow" ->
           resumed_once h h'
           /\ request_headers h' =
                (request_headers h
                   ++ [("X-PDP-Decision", "Allow"); ("X-PDP-Reason", Reason d);
                       ("X-Principal-ID", principalID ctx)])%list).
Proof.
  intros ctx nH bs nT h q h'. subst q.
  split; [apply ingress_callback_no_dispatch|]. split; [|split; [|split]].
  - subst h'. unfold OnHttpCallResponse.
    destruct (GetHttpCallResponseBody 0 bs h) as [body|];
      [|eapply terminal_after_response; reflexivity].
    destruct (json_Unmarshal body) as [resp|];
      [|eapply terminal_after_response; reflexivity].
    destruct (Decisions resp) as [|d rest];
      [eapply terminal_after_response; reflexivity|].
    destruct (negb (String.eqb (Decision_ d) "Allow"));
      [eapply terminal_after_response; reflexivity|].
    unfold terminal. cbn [resumed resumes ResumeHttpRequest]. apply orb_true_r.
  - intros H. subst h'. unfold OnHttpCallResponse. rewrite <- failed_body_bytes.
    destruct H as [Hb | [(body & msg & Hb & Hu) | (body & resp & Hb & Hu & Hd)]].
    + rewrite Hb. exact (proj1 (forbidden_outcome "Policy evaluation failed" "" h)).
    + rewrite Hb, Hu. exact (proj1 (forbidden_outcome "Policy evaluation failed" "" h)).
    + rewrite Hb, Hu, Hd. exact (proj1 (forbidden_outcome "Policy evaluation failed" "" h)).
  - intros body resp d rest Hb Hu Hd Hn. subst h'. unfold OnHttpCallResponse.
    rewrite Hb, Hu, Hd. apply String.eqb_neq in Hn. rewrite Hn. cbn [negb].
    rewrite <- (denied_body_bytes (Reason d)).
    exact (proj1 (forbidden_outcome "Access denied by policy" (Reason d) h)).
  - intros body resp d rest Hb Hu Hd Ha. subst h'. unfold OnHttpCallResponse.
    rewrite Hb, Hu, Hd, Ha. cbn [String.eqb Ascii.eqb Bool.eqb negb].
    repeat split. cbn. rewrite <- !app_assoc. reflexivity.
Qed.

(** When the first decision of the PDP's answer is [Deny], the callback
    ends the request with one 403 response; the body of that response is
    [{"error":"Access denied by policy","pdp_response":{"decision":"Deny","reason":"R"}}]
    with the bytes of the decision's reason, as they are, in the place of
    [R]. *)
Lemma ingress_deny_splices_reason :
  forall (ctx : httpContext) (nH bs nT : nat) (h : Host) (body : string)
         (resp : EvaluationResponse) (d : Decision) (rest : list Decision),
    GetHttpCallResponseBody 0 bs h = Some body ->
    json_Unmarshal body = Ok resp ->
    Decisions resp = d :: rest ->
    Decision_ d = "Deny" ->
    let h' := OnHttpCallResponse json_Unmarshal ctx nH bs nT h in
    terminated_with 403
      (("{" ++ quoted "error" ++ ":" ++ quoted "Access denied by policy" ++ ","
            ++ quoted "pdp_response" ++ ":{" ++ quoted "decision" ++ ":" ++ quoted "Deny"
            ++ "," ++ quoted "reason" ++ ":" ++ dq) ++ Reason d ++ dq ++ "}}")
      h h'
    /\ no_dispatch h h'.
Proof.
  intros ctx nH bs nT h body resp d rest Hb Hu Hd Hdeny h'. subst h'.
  unfold OnHttpCallResponse. rewrite Hb, Hu, Hd, Hdeny. cbn [String.eqb Ascii.eqb Bool.eqb negb].
  rewrite <- forbidden_body_reason.
  exact (forbidden_outcome "Access denied by policy" (Reason d) h).
Qed.

(** C4. When the first decision of the PDP's answer is [Allow], the
    callback resumes the request, sends no response, and appends to the
    request headers [X-PDP-Decision: Allow], [X-PDP-Reason] with the
    decision's reason and [X-Principal-ID] with the context's principal. *)
Theorem ingress_allow_resumes_with_decision_headers :
  forall (ctx : httpContext) (nH bs nT : nat) (h : Host) (body : string)
         (resp : EvaluationResponse) (d : Decision) (rest : list Decision),
    GetHttpCallResponseBody 0 bs h = Some body ->
    json_Unmarshal body = Ok resp ->
    Decisions resp = d :: rest ->
    Decision_ d = "Allow" ->
    let h' := OnHttpCallResponse json_Unmarshal ctx nH bs nT h in
    resumed_once h h'
    /\ request_headers h' =
         (request_headers h
            ++ [("X-PDP-Decision", "Allow"); ("X-PDP-Reason", Reason d);
                ("X-Principal-ID", principalID ctx)])%list
    /\ no_dispatch h h'.
Proof.
  intros ctx nH bs nT h body resp d rest Hb Hu Hd Hallow h'. subst h'.
  unfold OnHttpCallResponse. rewrite Hb, Hu, Hd, Hallow. cbn [String.eqb Ascii.eqb Bool.eqb negb].
  repeat split. cbn. rewrite <- !app_assoc. reflexivity.
Qed.

(** C5. Every way the policy callout can fail ends the request the same
    way: one 403 response with the body
    [{"error":"Policy evaluation failed","pdp_response":{"decision":"Deny","reason":R}}]
    where [R] is the empty string between quotes (the text on the failure
    is in the [error] field), no resumption, no header change, no
    pass-through.  The causes are: the host refuses the dispatch (first
    part); the response body cannot be read, cannot be parsed, or holds an
    empty decision list (second part).  A timeout or a reset has no path of
    its own: the host reports it through the same callback, with no body to
    read or a body that is not a PDP answer. *)
Theorem ingress_policy_failure_fails_closed :
  forall (ctx : httpContext) (n : nat) (e : bool) (nH bs nT : nat) (h : Host),
    let q := String "034"%char "" in
    let failed :=
      mkLocalResponse 403 [("content-type", "application/json")]
        ("{" ++ q ++ "error" ++ q ++ ":" ++ q ++ "Policy evaluation failed" ++ q ++ "," ++ q ++ "pdp_response" ++ q ++ ":{" ++ q ++ "decision" ++ q ++ ":" ++ q ++ "Deny" ++ q ++ "," ++ q ++ "reason" ++ q ++ ":" ++ q ++ q ++ "}}")
        (-1) in
    (forall path method a body,
        GetHttpRequestHeader ":path" h = Some path ->
        GetHttpRequestHeader ":method" h = Some method ->
        GetHttpRequestHeader "Authorization" h = Some a ->
        strings.HasPrefix a "Bearer " = true ->
        List.length (strings.Split (strings.TrimPrefix a "Bearer ") ".") = 3 ->
        json_Marshal (evaluation_request path h) = Ok body ->
        existsb (String.eqb pdpServiceCluster) (upstream_clusters h) = false ->
        let '(_, h', act) := OnHttpRequestHeaders json_Marshal ctx n e h in
        act = ActionPause
        /\ local_responses h' = (local_responses h ++ [failed])%list
        /\ request_headers h' = request_headers h
        /\ resumes h' = resumes h
        /\ dispatched h' = dispatched h)
    /\ (GetHttpCallResponseBody 0 bs h = None
        \/ (exists body msg,
               GetHttpCallResponseBody 0 bs h = Some body
               /\ json_Unmarshal body = Err msg)
        \/ (exists body resp,
               GetHttpCallResponseBody 0 bs h = Some body
               /\ json_Unmarshal body = Ok resp
               /\ Decisions resp = []) ->
        let h' := OnHttpCallResponse json_Unmarshal ctx nH bs nT h in
        local_responses h' = (local_responses h ++ [failed])%list
        /\ request_headers h' = request_headers h
        /\ resumes h' = resumes h
        /\ dispatched h' = dispatched h).
Proof.
  intros ctx n e nH bs nT h q failed. subst q failed.
  rewrite <- failed_body_bytes. split.
  - intros path method a body Hp Hm Ha Hpre H3 HM HC.
    rewrite (ingress_bearer_request ctx n e h path method a Hp Hm Ha Hpre).
    cbv zeta. rewrite H3, HM. cbn [Nat.eqb negb].
    unfold DispatchHttpCall. rewrite HC. repeat split.
  - intros H h'. subst h'. unfold OnHttpCallResponse.
    destruct H as [Hb | [(body & msg & Hb & Hu) | (body & resp & Hb & Hu & Hd)]].
    + rewrite Hb. repeat split.
    + rewrite Hb, Hu. repeat split.
    + rewrite Hb, Hu, Hd. repeat split.
Qed.

(** The headers step hands at most one call to the host. *)
Lemma ingress_headers_dispatch_at_most_one (ctx : httpContext) (n : nat) (e : bool)
      (h : Host) :
  let '(_, h', _) := OnHttpRequestHeaders json_Marshal ctx n e h in
  dispatched h' = dispatched h
  \/ exists c, dispatched h' = (dispatched h ++ [c])%list.
Proof.
  unfold OnHttpRequestHeaders.
  destruct (GetHttpRequestHeader ":path" h) as [path|]; [|left; reflexivity].
  destruct (GetHttpRequestHeader ":method" h) as [method|]; [|left; reflexivity].
  destruct (GetHttpRequestHeader "Authorization" h) as [a|]; [|left; reflexivity].
  destruct (String.eqb a ""); [left; reflexivity|].
  destruct (negb (strings.HasPrefix a "Bearer ")); [left; reflexivity|].
  destruct (parseJWTClaims _ _ h) as [claims|msg]; [|left; reflexivity].
  destruct (claim "sub" claims) as [sub|]; [|left; reflexivity].
  destruct (String.eqb sub ""); [left; reflexivity|].
  destruct (json_Marshal _) as [body|msg]; [|left; reflexivity].
  unfold DispatchHttpCall.
  destruct (existsb (String.eqb pdpServiceCluster) (upstream_clusters h));
    [right; eexists; reflexivity|left; reflexivity].
Qed.

Lemma ingress_callbacks_no_dispatch (ctx : httpContext) (outcomes : list (option string)) :
  forall h, dispatched (callbacks json_Unmarshal ctx outcomes h) = dispatched h.
Proof.
  induction outcomes as [|o rest IH]; intros h; cbn [callbacks]; [reflexivity|].
  cbv zeta. rewrite IH, ingress_callback_no_dispatch. reflexivity.
Qed.

End IngressProperties.

(** * Properties of the egress interceptor *)
Section EgressProperties.
Import proxywasm ClientFilter Outcome.

Variable json_Unmarshal : string -> result TokenResponse.

Lemma name_eqb_refl (k : string) : name_eqb k k = true.
Proof. unfold name_eqb. apply String.eqb_refl. Qed.

Lemma others_cons (key k v : string) (hs : Headers) :
  others key ((k, v) :: hs)
  = if name_eqb k key then others key hs else (k, v) :: others key hs.
Proof. unfold others. cbn [filter fst]. now destruct (name_eqb k key). Qed.

Lemma lookup_cons (key k v : string) (hs : Headers) :
  lookup key ((k, v) :: hs) = if name_eqb k key then Some v else lookup key hs.
Proof. reflexivity. Qed.

Lemma lookup_others_none (key : string) (hs : Headers) :
  lookup key (others key hs) = None.
Proof.
  induction hs as [|[k v] hs IH]; [reflexivity|].
  rewrite others_cons. destruct (name_eqb k key) eqn:E; [exact IH|].
  rewrite lookup_cons, E. exact IH.
Qed.

Lemma lookup_app_none (key : string) (hs hs' : Headers) :
  lookup key hs = None -> lookup key (hs ++ hs')%list = lookup key hs'.
Proof.
  induction hs as [|[k v] hs IH]; [reflexivity|].
  rewrite <- app_comm_cons, !lookup_cons.
  destruct (name_eqb k key); [discriminate|exact IH].
Qed.

Lemma others_idempotent (key : string) (hs : Headers) :
  others key (others key hs) = others key hs.
Proof.
  induction hs as [|[k v] hs IH]; [reflexivity|].
  rewrite others_cons. destruct (name_eqb k key) eqn:E; [exact IH|].
  rewrite others_cons, E, IH. reflexivity.
Qed.

(** After a replacement the header reads as the new value, and the
    entries under other names are the ones there were, in their order. *)
Lemma replace_header_get (key value : string) (h : Host) :
  GetHttpRequestHeader key (ReplaceHttpRequestHeader key value h) = Some value.
Proof.
  unfold GetHttpRequestHeader, ReplaceHttpRequestHeader, with_request_headers.
  cbn [request_headers].
  rewrite lookup_app_none by apply lookup_others_none.
  rewrite lookup_cons, name_eqb_refl. reflexivity.
Qed.

Lemma replace_header_others (key value : string) (h : Host) :
  others key (request_headers (ReplaceHttpRequestHeader key value h))
  = others key (request_headers h).
Proof.
  unfold ReplaceHttpRequestHeader, with_request_headers. cbn [request_headers].
  unfold others at 1. rewrite filter_app.
  fold (others key (others key (request_headers h))).
  fold (others key [(key, value)]).
  rewrite others_idempotent, others_cons, name_eqb_refl. apply app_nil_r.
Qed.

(** The headers step changes no request header and sends nothing. *)
Lemma egress_headers_step_frame (ctx : httpContext) (n : nat) (e : bool) (h : Host) :
  let '(h', _) := OnHttpRequestHeaders ctx n e h in
  request_headers h' = request_headers h
  /\ local_responses h' = local_responses h
  /\ resumes h' = resumes h
  /\ (dispatched h' = dispatched h \/ exists c, dispatched h' = (dispatched h ++ [c])%list).
Proof.
  unfold OnHttpRequestHeaders.
  destruct (GetHttpRequestHeader ":authority" h) as [a|]; [|now repeat split; try left].
  destruct (andb _ _); [now repeat split; try left|].
  unfold DispatchHttpCall.
  destruct (existsb _ _); cbn; repeat split; [right; eexists; reflexivity|now left].
Qed.

Lemma egress_callback_no_dispatch (ctx : httpContext) (nH bs nT : nat) (h : Host) :
  dispatched (handleJWTResponse json_Unmarshal ctx nH bs nT h) = dispatched h.
Proof.
  unfold handleJWTResponse.
  destruct (GetHttpCallResponseBody 0 bs h) as [body|]; [|reflexivity].
  destruct (json_Unmarshal body) as [resp|]; [|reflexivity].
  destruct (String.eqb (Token resp) ""); reflexivity.
Qed.

Lemma egress_callbacks_no_dispatch (ctx : httpContext) (outcomes : list (option string)) :
  forall h, dispatched (callbacks json_Unmarshal ctx outcomes h) = dispatched h.
Proof.
  induction outcomes as [|o rest IH]; intros h; cbn [callbacks]; [reflexivity|].
  cbv zeta. rewrite IH, egress_callback_no_dispatch. reflexivity.
Qed.

(** C7. On no path does the egress interceptor touch a request header
    other than Authorization: the request-headers step and the
    response-headers step leave the header map as it is, and the callback
    leaves the entries under every other name as they were.  When the
    issuer's answer parses and its token is not empty, the callback sets
    Authorization to ["Bearer " ++ token], the single entry under that
    name, and resumes. *)
Theorem egress_mutates_only_authorization :
  forall (ctx : httpContext) (n : nat) (e : bool) (nH bs nT : nat) (h : Host),
    let h' := handleJWTResponse json_Unmarshal ctx nH bs nT h in
    request_headers (fst (OnHttpRequestHeaders ctx n e h)) = request_headers h
    /\ request_headers (fst (OnHttpResponseHeaders ctx n e h)) = request_headers h
    /\ others "Authorization" (request_headers h')
       = others "Authorization" (request_headers h)
    /\ (forall body resp,
           GetHttpCallResponseBody 0 bs h = Some body ->
           json_Unmarshal body = Ok resp ->
           Token resp <> "" ->
           GetHttpRequestHeader "Authorization" h' = Some ("Bearer " ++ Token resp)
           /\ request_headers h' =
                (others "Authorization" (request_headers h)
                   ++ [("Authorization", ("Bearer " ++ Token resp)%string)])%list
           /\ resumed_once h h'
           /\ no_dispatch h h').
Proof.
  intros ctx n e nH bs nT h h'. split; [|split; [|split]].
  - pose proof (egress_headers_step_frame ctx n e h) as F.
    destruct (OnHttpRequestHeaders ctx n e h) as [h1 act]. apply F.
  - unfold OnHttpResponseHeaders.
    destruct (GetHttpResponseHeader ":status" h); reflexivity.
  - subst h'. unfold handleJWTResponse.
    destruct (GetHttpCallResponseBody 0 bs h) as [body|]; [|reflexivity].
    destruct (json_Unmarshal body) as [resp|]; [|reflexivity].
    destruct (String.eqb (Token resp) ""); [reflexivity|].
    exact (replace_header_others "Authorization" _ h).
  - intros body resp Hb Hu Ht. subst h'. unfold handleJWTResponse.
    rewrite Hb, Hu. apply String.eqb_neq in Ht. rewrite Ht.
    split; [exact (replace_header_get "Authorization" _ h)|].
    repeat split.
Qed.

(** C8. When the request's [:authority] is neither ["service-b:8083"] nor
    ["service-b"], the headers step returns [ActionContinue] and leaves
    the host exactly as it was: no dispatch, no header change, no
    response. *)
Theorem egress_other_destination_passes_through :
  forall (ctx : httpContext) (n : nat) (e : bool) (h : Host),
    GetHttpRequestHeader ":authority" h <> Some "service-b:8083" ->
    GetHttpRequestHeader ":authority" h <> Some "service-b" ->
    OnHttpRequestHeaders ctx n e h = (h, ActionContinue).
Proof.
  intros ctx n e h H1 H2. unfold OnHttpRequestHeaders.
  destruct (GetHttpRequestHeader ":authority" h) as [a|]; [|reflexivity].
  destruct (String.eqb a "service-b:8083") eqn:E1.
  - apply String.eqb_eq in E1. subst a. contradiction.
  - destruct (String.eqb a "service-b") eqn:E2; [|reflexivity].
    apply String.eqb_eq in E2. subst a. contradiction.
Qed.

(** C9. When the issuer's answer cannot be read, cannot be parsed, or
    parses with an empty token, the callback resumes the request, changes
    no request header and sends no response. *)
Theorem egress_issuance_failure_fails_open :
  forall (ctx : httpContext) (nH bs nT : nat) (h : Host),
    (GetHttpCallResponseBody 0 bs h = None
     \/ (exists body msg,
            GetHttpCallResponseBody 0 bs h = Some body
            /\ json_Unmarshal body = Err msg)
     \/ (exists body resp,
            GetHttpCallResponseBody 0 bs h = Some body
            /\ json_Unmarshal body = Ok resp
            /\ Token resp = "")) ->
    let h' := handleJWTResponse json_Unmarshal ctx nH bs nT h in
    resumed_once h h'
    /\ request_headers h' = request_headers h
    /\ no_dispatch h h'.
Proof.
  intros ctx nH bs nT h H h'. subst h'. unfold handleJWTResponse.
  destruct H as [Hb | [(body & msg & Hb & Hu) | (body & resp & Hb & Hu & Ht)]].
  - rewrite Hb. repeat split.
  - rewrite Hb, Hu. repeat split.
  - rewrite Hb, Hu, Ht. repeat split.
Qed.

End EgressProperties.

(** * One dispatch per request *)
Section DispatchDiscipline.
Import proxywasm Outcome.

Variable json_Marshal : ServerFilter.EvaluationRequest -> result string.
Variable json_UnmarshalEvaluation : string -> result ServerFilter.EvaluationResponse.
Variable json_UnmarshalToken : string -> result ClientFilter.TokenResponse.

(** C10. Over the whole life of a request context (the headers step, then
    any sequence of callout outcomes delivered to the callback) each
    interceptor hands at most one call to the host, and the call, when
    there is one, comes from the headers step: the callbacks of both
    interceptors leave the list of dispatched calls as it is. *)
Theorem one_dispatch_per_request :
  forall (ictx : ServerFilter.httpContext) (ectx : ClientFilter.httpContext)
         (n : nat) (e : bool) (outcomes : list (option string))
         (nH bs nT : nat) (h : Host),
    let hi := ServerFilter.lifecycle json_Marshal json_UnmarshalEvaluation
                                     ictx n e outcomes h in
    let he := ClientFilter.lifecycle json_UnmarshalToken ectx n e outcomes h in
    (dispatched hi = dispatched h
     \/ exists c, dispatched hi = (dispatched h ++ [c])%list)
    /\ (dispatched he = dispatched h
        \/ exists c, dispatched he = (dispatched h ++ [c])%list)
    /\ no_dispatch h (ServerFilter.OnHttpCallResponse json_UnmarshalEvaluation
                                                      ictx nH bs nT h)
    /\ no_dispatch h (ClientFilter.handleJWTResponse json_UnmarshalToken
                                                     ectx nH bs nT h).
Proof.
  intros ictx ectx n e outcomes nH bs nT h hi he. repeat split.
  - subst hi. unfold ServerFilter.lifecycle.
    pose proof (ingress_headers_dispatch_at_most_one json_Marshal ictx n e h) as F.
    destruct (ServerFilter.OnHttpRequestHeaders json_Marshal ictx n e h)
      as [[ctx' h'] act].
    rewrite ingress_callbacks_no_dispatch. exact F.
  - subst he. unfold ClientFilter.lifecycle.
    pose proof (egress_headers_step_frame ectx n e h) as F.
    destruct (ClientFilter.OnHttpRequestHeaders ectx n e h) as [h' act].
    cbn [fst]. rewrite egress_callbacks_no_dispatch. apply F.
  - apply ingress_callback_no_dispatch.
  - apply egress_callback_no_dispatch.
Qed.

End DispatchDiscipline.

(** * The properties at the sample inputs *)
Section Witnesses.
Import proxywasm Outcome.

(** C6 at a request with no Authorization header. *)
Lemma ingress_credential_missing_witness :
  GetHttpRequestHeader "Authorization" Sample.anonymous_request = None
  /\ let '(_, h', act) :=
         ServerFilter.OnHttpRequestHeaders Sample.Marshal Sample.ingress_ctx 3 true
                                           Sample.anonymous_request in
     act = ActionPause
     /\ (exists msg,
            terminated_with 401 (ServerFilter.unauthorized_body msg)
                            Sample.anonymous_request h')
     /\ no_dispatch Sample.anonymous_request h'.
Proof.
  split; [reflexivity|].
  exact (ingress_credential_missing_or_malformed
           Sample.Marshal Sample.ingress_ctx 3 true Sample.anonymous_request
           "/process?asset=asset-x" "GET" eq_refl eq_refl (or_introl eq_refl)).
Defined.

(** C6 as first stated fails at a CONNECT request: it has no [:path] and
    no Authorization header, and it is let through with no response. *)
Lemma ingress_connect_request_not_rejected :
  GetHttpRequestHeader "Authorization" Sample.connect_request = None
  /\ ServerFilter.OnHttpRequestHeaders Sample.Marshal Sample.ingress_ctx 2 true
                                       Sample.connect_request
     = (Sample.ingress_ctx, Sample.connect_request, ActionContinue)
  /\ local_responses Sample.connect_request = [].
Proof. repeat split. Qed.

(** C1 at a request with a well-formed token. *)
Lemma ingress_token_shape_witness :
  strings.HasPrefix ("Bearer " ++ Sample.sample_token) "Bearer " = true
  /\ let '(ctx', h', act) :=
         ServerFilter.OnHttpRequestHeaders Sample.Marshal Sample.ingress_ctx 4 true
                                           Sample.valid_request in
     ServerFilter.principalID ctx' = "service-a"
     /\ List.length (dispatched h') = 1
     /\ local_responses h' = [].
Proof.
  split; [reflexivity|].
  pose proof (ingress_token_checked_by_shape_only
                Sample.Marshal Sample.ingress_ctx 4 true Sample.valid_request
                "/process?asset=asset-x" "GET" ("Bearer " ++ Sample.sample_token)
                eq_refl eq_refl eq_refl eq_refl) as W.
  cbv zeta in W.
  destruct (ServerFilter.OnHttpRequestHeaders Sample.Marshal Sample.ingress_ctx 4 true
                                              Sample.valid_request)
    as [[ctx' h'] act].
  destruct W as (_ & _ & W). destruct (W eq_refl) as (Hp & Hd).
  destruct (Hd _ eq_refl eq_refl) as (D & L & _).
  split; [exact Hp|]. split; [rewrite D; reflexivity|exact L].
Defined.

(** C1 as first stated fails at a token whose payload part is [!!!]: the
    part is not base64url, yet no 401 is sent, the PDP is called, and the
    principal is ["service-a"]. *)
Lemma ingress_undecodable_payload_reaches_pdp :
  GetHttpRequestHeader "Authorization" Sample.garbled_request
    = Some ("Bearer " ++ Sample.garbled_token)
  /\ nth_error (strings.Split Sample.garbled_token ".") 1 = Some "!!!"
  /\ spec_base64url_segment "!!!" = false
  /\ let '(ctx', h', act) :=
         ServerFilter.OnHttpRequestHeaders Sample.Marshal Sample.ingress_ctx 4 true
                                           Sample.garbled_request in
     local_responses h' = []
     /\ List.length (dispatched h') = 1
     /\ ServerFilter.principalID ctx' = "service-a".
Proof. repeat split. Qed.

(** C2 as first stated fails: after an [Allow] the request is resumed, and
    the same callback delivered again changes the request headers and
    resumes again; after a [Deny] the request is terminated, and the same
    callback delivered again sends a second response. *)
Lemma ingress_redelivery_is_not_a_noop :
  (terminal Sample.after_allow = true
   /\ request_headers Sample.after_allow_again <> request_headers Sample.after_allow
   /\ resumes Sample.after_allow_again = 2)
  /\ (terminal Sample.after_deny = true
      /\ List.length (local_responses Sample.after_deny) = 1
      /\ List.length (local_responses Sample.after_deny_again) = 2).
Proof.
  repeat split. intros H.
  apply (f_equal (@List.length (string * string))) in H. discriminate H.
Qed.

(** The splice at the sample [Deny] answer. *)
Lemma ingress_deny_splice_sample :
  GetHttpCallResponseBody 0 (String.length Sample.deny_body)
                          (Sample.awaiting_pdp (Some Sample.deny_body))
    = Some Sample.deny_body
  /\ Sample.UnmarshalEvaluation Sample.deny_body
     = Ok (ServerFilter.mkEvaluationResponse [Sample.deny_y])
  /\ terminated_with 403
       (ServerFilter.forbidden_body "Access denied by policy"
          "Service service-a is not allowed to access asset-y")
       (Sample.awaiting_pdp (Some Sample.deny_body)) Sample.after_deny.
Proof.
  split; [reflexivity|]. split; [reflexivity|].
  exact (proj1 (ingress_deny_splices_reason
                  Sample.UnmarshalEvaluation Sample.awaiting_ctx
                  0 (String.length Sample.deny_body) 0
                  (Sample.awaiting_pdp (Some Sample.deny_body)) Sample.deny_body
                  (ServerFilter.mkEvaluationResponse [Sample.deny_y]) Sample.deny_y []
                  eq_refl eq_refl eq_refl eq_refl)).
Defined.

(** C4 at the sample [Allow] answer. *)
Lemma ingress_allow_witness :
  GetHttpCallResponseBody 0 (String.length Sample.allow_body)
                          (Sample.awaiting_pdp (Some Sample.allow_body))
    = Some Sample.allow_body
  /\ Sample.UnmarshalEvaluation Sample.allow_body
     = Ok (ServerFilter.mkEvaluationResponse [Sample.allow_x])
  /\ resumed_once (Sample.awaiting_pdp (Some Sample.allow_body)) Sample.after_allow
  /\ GetHttpRequestHeader "X-PDP-Decision" Sample.after_allow = Some "Allow".
Proof.
  split; [reflexivity|]. split; [reflexivity|].
  pose proof (ingress_allow_resumes_with_decision_headers
                Sample.UnmarshalEvaluation Sample.awaiting_ctx
                0 (String.length Sample.allow_body) 0
                (Sample.awaiting_pdp (Some Sample.allow_body)) Sample.allow_body
                (ServerFilter.mkEvaluationResponse [Sample.allow_x]) Sample.allow_x []
                eq_refl eq_refl eq_refl eq_refl) as W.
  cbv zeta in W. destruct W as (R & Hh & _).
  split; [exact R|].
  unfold GetHttpRequestHeader.
  change (request_headers Sample.after_allow)
    with (request_headers
            (ServerFilter.OnHttpCallResponse
               Sample.UnmarshalEvaluation Sample.awaiting_ctx
               0 (String.length Sample.allow_body) 0
               (Sample.awaiting_pdp (Some Sample.allow_body)))).
  rewrite Hh. reflexivity.
Defined.

(** C5 at each of the four causes: the PDP cluster is unknown to the host;
    no body; a body that is not JSON; an empty decision list. *)
Lemma ingress_fail_closed_witness :
  let q := String "034"%char "" in
  let failed :=
    mkLocalResponse 403 [("content-type", "application/json")]
      ("{" ++ q ++ "error" ++ q ++ ":" ++ q ++ "Policy evaluation failed" ++ q ++ "," ++ q ++ "pdp_response" ++ q ++ ":{" ++ q ++ "decision" ++ q ++ ":" ++ q ++ "Deny" ++ q ++ "," ++ q ++ "reason" ++ q ++ ":" ++ q ++ q ++ "}}")
      (-1) in
  (let '(_, h', act) :=
       ServerFilter.OnHttpRequestHeaders Sample.Marshal Sample.ingress_ctx 4 true
                                         Sample.unreachable_pdp_request in
   act = ActionPause
   /\ local_responses h' = (local_responses Sample.unreachable_pdp_request ++ [failed])%list
   /\ request_headers h' = request_headers Sample.unreachable_pdp_request
   /\ resumes h' = resumes Sample.unreachable_pdp_request
   /\ dispatched h' = dispatched Sample.unreachable_pdp_request)
  /\ (local_responses (Sample.pdp_callback (Sample.awaiting_pdp None)) = (local_responses (Sample.awaiting_pdp None) ++ [failed])%list
      /\ request_headers (Sample.pdp_callback (Sample.awaiting_pdp None)) = request_headers (Sample.awaiting_pdp None)
      /\ resumes (Sample.pdp_callback (Sample.awaiting_pdp None)) = resumes (Sample.awaiting_pdp None)
      /\ dispatched (Sample.pdp_callback (Sample.awaiting_pdp None)) = dispatched (Sample.awaiting_pdp None))
  /\ (local_responses (Sample.pdp_callback (Sample.awaiting_pdp (Some "upstream request timeout"))) = (local_responses (Sample.awaiting_pdp (Some "upstream request timeout")) ++ [failed])%list
      /\ request_headers (Sample.pdp_callback (Sample.awaiting_pdp (Some "upstream request timeout"))) = request_headers (Sample.awaiting_pdp (Some "upstream request timeout"))
      /\ resumes (Sample.pdp_callback (Sample.awaiting_pdp (Some "upstream request timeout"))) = resumes (Sample.awaiting_pdp (Some "upstream request timeout"))
      /\ dispatched (Sample.pdp_callback (Sample.awaiting_pdp (Some "upstream request timeout"))) = dispatched (Sample.awaiting_pdp (Some "upstream request timeout")))
  /\ (local_responses (Sample.pdp_callback (Sample.awaiting_pdp (Some Sample.empty_body))) = (local_responses (Sample.awaiting_pdp (Some Sample.empty_body)) ++ [failed])%list
      /\ request_headers (Sample.pdp_callback (Sample.awaiting_pdp (Some Sample.empty_body))) = request_headers (Sample.awaiting_pdp (Some Sample.empty_body))
      /\ resumes (Sample.pdp_callback (Sample.awaiting_pdp (Some Sample.empty_body))) = resumes (Sample.awaiting_pdp (Some Sample.empty_body))
      /\ dispatched (Sample.pdp_callback (Sample.awaiting_pdp (Some Sample.empty_body))) = dispatched (Sample.awaiting_pdp (Some Sample.empty_body))).
Proof.
  cbv zeta. split; [|split; [|split]].
  - exact (proj1 (ingress_policy_failure_fails_closed
                    Sample.Marshal Sample.UnmarshalEvaluation Sample.ingress_ctx
                    4 true 0 0 0 Sample.unreachable_pdp_request)
                 "/process?asset=asset-x" "GET" ("Bearer " ++ Sample.sample_token) _
                 eq_refl eq_refl eq_refl eq_refl eq_refl eq_refl eq_refl).
  - exact (proj2 (ingress_policy_failure_fails_closed
                    Sample.Marshal Sample.UnmarshalEvaluation Sample.awaiting_ctx
                    4 true 0 0 0 (Sample.awaiting_pdp None))
                 (or_introl eq_refl)).
  - refine (proj2 (ingress_policy_failure_fails_closed
                     Sample.Marshal Sample.UnmarshalEvaluation Sample.awaiting_ctx
                     4 true 0 (String.length "upstream request timeout") 0
                     (Sample.awaiting_pdp (Some "upstream request timeout")))
                  (or_intror (or_introl _))).
    do 2 eexists. split; reflexivity.
  - refine (proj2 (ingress_policy_failure_fails_closed
                     Sample.Marshal Sample.UnmarshalEvaluation Sample.awaiting_ctx
                     4 true 0 (String.length Sample.empty_body) 0
                     (Sample.awaiting_pdp (Some Sample.empty_body)))
                  (or_intror (or_intror _))).
    do 2 eexists. repeat split; reflexivity.
Defined.

(** C7 at the sample issuer answer. *)
Lemma egress_authorization_witness :
  Sample.UnmarshalToken Sample.token_body
    = Ok (ClientFilter.mkTokenResponse Sample.sample_token 300)
  /\ GetHttpRequestHeader "Authorization"
       (Sample.token_callback (Sample.awaiting_token (Some Sample.token_body)))
     = Some ("Bearer " ++ Sample.sample_token).
Proof.
  split; [reflexivity|].
  pose proof (egress_mutates_only_authorization
                Sample.UnmarshalToken Sample.egress_ctx 4 true
                0 (String.length Sample.token_body) 0
                (Sample.awaiting_token (Some Sample.token_body))) as W.
  cbv zeta in W. destruct W as (_ & _ & _ & W).
  refine (proj1 (W Sample.token_body
                   (ClientFilter.mkTokenResponse Sample.sample_token 300)
                   eq_refl eq_refl _)).
  discriminate.
Defined.

(** C8 at a request to another destination. *)
Lemma egress_pass_through_witness :
  GetHttpRequestHeader ":authority" Sample.to_elsewhere = Some "metrics:9090"
  /\ ClientFilter.OnHttpRequestHeaders Sample.egress_ctx 4 true Sample.to_elsewhere
     = (Sample.to_elsewhere, ActionContinue).
Proof.
  split; [reflexivity|].
  apply (egress_other_destination_passes_through
           Sample.egress_ctx 4 true Sample.to_elsewhere); discriminate.
Defined.

(** C9 at an answer with an empty token. *)
Lemma egress_fail_open_witness :
  Sample.UnmarshalToken Sample.empty_token_body = Ok (ClientFilter.mkTokenResponse "" 0)
  /\ let h := Sample.awaiting_token (Some Sample.empty_token_body) in
     let h' := Sample.token_callback h in
     resumed_once h h' /\ request_headers h' = request_headers h /\ no_dispatch h h'.
Proof.
  split; [reflexivity|].
  refine (egress_issuance_failure_fails_open
            Sample.UnmarshalToken Sample.egress_ctx
            0 (String.length Sample.empty_token_body) 0
            (Sample.awaiting_token (Some Sample.empty_token_body))
            (or_intror (or_intror _))).
  do 2 eexists. repeat split; reflexivity.
Defined.

End Witnesses.

(** * Facts on prefixes, splits and occurrences *)
Section TextFacts.
Import strings Text.

Lemma prefix_empty (s : string) : String.prefix "" s = true.
Proof. now destruct s. Qed.

Lemma string_app_nil (s : string) : s ++ "" = s.
Proof. induction s as [|c s IH]; cbn; [reflexivity|now rewrite IH]. Qed.

Lemma prefix_app (p s : string) : String.prefix p (p ++ s) = true.
Proof.
  induction p as [|c p IH]; cbn [append String.prefix]; [apply prefix_empty|].
  destruct (ascii_dec c c) as [_|N]; [exact IH|contradiction].
Qed.

Lemma length_app (p s : string) :
  String.length (p ++ s) = String.length p + String.length s.
Proof. induction p as [|c p IH]; cbn; [reflexivity|now rewrite IH]. Qed.

Lemma substring_whole (s : string) : substring 0 (String.length s) s = s.
Proof. induction s as [|c s IH]; cbn; [reflexivity|now rewrite IH]. Qed.

Lemma substring_app_left (v w : string) : substring 0 (String.length v) (v ++ w) = v.
Proof.
  induction v as [|c v IH]; cbn; [now destruct w|now rewrite IH].
Qed.

Lemma substring_skip (p s : string) (m : nat) :
  substring (String.length p) m (p ++ s) = substring 0 m s.
Proof. induction p as [|c p IH]; cbn; [reflexivity|exact IH]. Qed.

(** [strings.TrimPrefix] undoes the prepending of the prefix. *)
Lemma TrimPrefix_app (p s : string) : TrimPrefix (p ++ s) p = s.
Proof.
  unfold TrimPrefix, HasPrefix. rewrite prefix_app, length_app, substring_skip.
  replace (String.length p + String.length s - String.length p) with (String.length s)
    by lia.
  apply substring_whole.
Qed.

Lemma split_from_cons (sep cur : string) (c : ascii) (s : string) :
  split_from sep 0 cur (String c s)
  = if String.prefix sep (String c s)
    then cur :: split_from sep (String.length sep - 1) "" s
    else split_from sep 0 (cur ++ String c "") s.
Proof. reflexivity. Qed.

Lemma split_from_head (sep : string) (s : string) :
  forall cur, exists r tl, split_from sep 0 cur s = (cur ++ r) :: tl.
Proof.
  induction s as [|c s IH]; intros cur.
  - exists "", []. cbn. now rewrite string_app_nil.
  - cbn [split_from]. destruct (String.prefix sep (String c s)).
    + exists "". eexists. now rewrite string_app_nil.
    + destruct (IH (cur ++ String c "")) as (r & tl & E).
      exists (String c r), tl. rewrite E, string_app_assoc. reflexivity.
Qed.

(** A string in which the separator does not occur is one piece. *)
Lemma split_from_no_occurrence (sep : string) (s : string) :
  forall cur, Contains s sep = false -> split_from sep 0 cur s = [cur ++ s].
Proof.
  induction s as [|c s IH]; intros cur H.
  - cbn. now rewrite string_app_nil.
  - cbn [Contains] in H. apply orb_false_iff in H. destruct H as [Hp Hc].
    cbn [split_from]. rewrite Hp, (IH _ Hc), string_app_assoc. reflexivity.
Qed.

(** A match of [sep] that runs into a byte [sep] does not hold stops
    before that byte. *)
Lemma prefix_before_byte (d : ascii) (rest : string) (sep : string) :
  forall x, has_byte d sep = false ->
            String.prefix sep (x ++ String d rest) = true ->
            String.prefix sep x = true.
Proof.
  induction sep as [|a sep IH]; intros x Hd H; [apply prefix_empty|].
  cbn [has_byte] in Hd. apply orb_false_iff in Hd. destruct Hd as [Ha Hd].
  destruct x as [|b x]; cbn [append String.prefix] in H |- *.
  - destruct (ascii_dec a d) as [E|_]; [|discriminate].
    subst. now rewrite Ascii.eqb_refl in Ha.
  - destruct (ascii_dec a b); [|discriminate]. now apply IH.
Qed.

(** The piece that holds [v] when a byte foreign to [sep] follows it. *)
Lemma split_from_through_byte (sep : string) (d : ascii) (rest : string) (v : string) :
  forall cur,
    Contains v sep = false -> has_byte d sep = false ->
    exists r tl, split_from sep 0 cur (v ++ String d rest)
                 = (cur ++ v ++ String d r) :: tl.
Proof.
  induction v as [|c v IH]; intros cur Hv Hd.
  - cbn [append split_from].
    assert (String.prefix sep (String d rest) = false) as Hp.
    { destruct (String.prefix sep (String d rest)) eqn:E; [|reflexivity].
      apply (prefix_before_byte d rest sep "" Hd) in E.
      cbn [Contains] in Hv. rewrite E in Hv. discriminate. }
    rewrite Hp.
    destruct (split_from_head sep rest (cur ++ String d "")) as (r & tl & E).
    exists r, tl. rewrite E, string_app_assoc. reflexivity.
  - cbn [Contains] in Hv. apply orb_false_iff in Hv. destruct Hv as [Hp Hc].
    cbn [append split_from].
    assert (String.prefix sep (String c (v ++ String d rest)) = false) as Hp'.
    { destruct (String.prefix sep (String c (v ++ String d rest))) eqn:E; [|reflexivity].
      apply (prefix_before_byte d rest sep (String c v) Hd) in E. congruence. }
    rewrite Hp'. destruct (IH (cur ++ String c "") Hc Hd) as (r & tl & E).
    exists r, tl. rewrite E, string_app_assoc. reflexivity.
Qed.

(** ["asset="] overlaps no copy of itself: a match that starts inside [p]
    and runs into a following ["asset="] lies within [p]. *)
Lemma asset_key_no_overlap (p w : string) :
  String.prefix "asset=" (p ++ "asset=" ++ w) = true ->
  p = "" \/ String.prefix "asset=" p = true.
Proof.
  intros H.
  destruct p as [|c0 p]; [now left|right].
  cbn [append String.prefix] in H |- *. destruct (ascii_dec "a" c0); [|discriminate].
  destruct p as [|c1 p]; cbn [append String.prefix] in H |- *; [discriminate|].
  destruct (ascii_dec "s" c1); [|discriminate].
  destruct p as [|c2 p]; cbn [append String.prefix] in H |- *; [discriminate|].
  destruct (ascii_dec "s" c2); [|discriminate].
  destruct p as [|c3 p]; cbn [append String.prefix] in H |- *; [discriminate|].
  destruct (ascii_dec "e" c3); [|discriminate].
  destruct p as [|c4 p]; cbn [append String.prefix] in H |- *; [discriminate|].
  destruct (ascii_dec "t" c4); [|discriminate].
  destruct p as [|c5 p]; cbn [append String.prefix] in H |- *; [discriminate|].
  destruct (ascii_dec "=" c5); [|discriminate].
  apply prefix_empty.
Qed.

(** The first ["asset="] of a path cuts it in two. *)
Lemma split_at_asset_key (p w : string) :
  forall cur,
    Contains p "asset=" = false ->
    split_from "asset=" 0 cur (p ++ "asset=" ++ w)
    = (cur ++ p) :: split_from "asset=" 0 "" w.
Proof.
  induction p as [|c p IH]; intros cur H.
  - cbn [append split_from String.prefix String.length Nat.sub].
    repeat match goal with
           | |- context [ascii_dec ?a ?a] =>
               destruct (ascii_dec a a) as [_|N]; [|contradiction]
           end.
    rewrite prefix_empty, string_app_nil. reflexivity.
  - cbn [Contains] in H. apply orb_false_iff in H. destruct H as [Hp Hc].
    assert (String.prefix "asset=" (String c p ++ "asset=" ++ w) = false) as Hp'.
    { destruct (String.prefix "asset=" (String c p ++ "asset=" ++ w)) eqn:E;
        [|reflexivity].
      destruct (asset_key_no_overlap (String c p) w E) as [N|N]; congruence. }
    change (String c p ++ "asset=" ++ w) with (String c (p ++ "asset=" ++ w)) in Hp' |- *.
    rewrite split_from_cons, Hp', (IH _ Hc), string_app_assoc. reflexivity.
Qed.

(** [strings.Index] at the byte [&]. *)
Lemma index_amp_none (s : string) :
  has_byte "&" s = false -> String.index 0 "&" s = None.
Proof.
  induction s as [|c s IH]; intros H; [reflexivity|].
  cbn [has_byte] in H. apply orb_false_iff in H. destruct H as [Hc Hs].
  cbn [String.index String.prefix]. destruct (ascii_dec "&" c) as [E|_].
  - subst. discriminate.
  - now rewrite (IH Hs).
Qed.

Lemma index_amp_first (v r : string) :
  has_byte "&" v = false ->
  String.index 0 "&" (v ++ String "&" r) = Some (String.length v).
Proof.
  induction v as [|c v IH]; intros H.
  - cbn [append String.index String.prefix String.length].
    destruct (ascii_dec "&" "&") as [_|N]; [|contradiction].
    now rewrite prefix_empty.
  - cbn [has_byte] in H. apply orb_false_iff in H. destruct H as [Hc Hs].
    cbn [append String.index String.prefix String.length].
    destruct (ascii_dec "&" c) as [E|_].
    + subst. discriminate.
    + now rewrite (IH Hs).
Qed.

Lemma index_amp_cut (s : string) :
  forall i, String.index 0 "&" s = Some i -> has_byte "&" (substring 0 i s) = false.
Proof.
  induction s as [|c s IH]; intros i H; [discriminate|].
  cbn [String.index String.prefix] in H. destruct (ascii_dec "&" c) as [E|N].
  - rewrite prefix_empty in H. injection H as <-. reflexivity.
  - destruct (String.index 0 "&" s) as [j|] eqn:Ej; [|discriminate].
    injection H as <-. cbn [substring has_byte]. rewrite (IH j eq_refl), orb_false_r.
    apply Ascii.eqb_neq. congruence.
Qed.

Lemma index_amp_absent (s : string) :
  String.index 0 "&" s = None -> has_byte "&" s = false.
Proof.
  induction s as [|c s IH]; intros H; [reflexivity|].
  cbn [String.index String.prefix] in H. destruct (ascii_dec "&" c) as [E|N].
  - rewrite prefix_empty in H. discriminate.
  - destruct (String.index 0 "&" s) as [j|] eqn:Ej; [discriminate|].
    cbn [has_byte]. rewrite (IH eq_refl), orb_false_r. apply Ascii.eqb_neq. congruence.
Qed.

(** Without [asset=] in the path there is no resource to read. *)
Lemma extractAssetFromPath_no_key (path : string) :
  Contains path "asset=" = false -> ServerFilter.extractAssetFromPath path = "".
Proof.
  intros H. unfold ServerFilter.extractAssetFromPath, Split.
  now rewrite (split_from_no_occurrence _ path "" H).
Qed.

End TextFacts.

(** * The resource and the token as the ingress interceptor reads them *)
Section IngressParsing.
Import proxywasm ServerFilter Text.

(** X1. [extractAssetFromPath] reads the value of the first [asset=]:
    when no [asset=] occurs before it, and the value [v] holds neither [&]
    nor [asset=], the result is [v], whether the path ends there or goes on
    with [&] and further text. *)
Theorem extractAssetFromPath_first_parameter :
  forall (p v rest : string),
    Contains p "asset=" = false ->
    Contains v "asset=" = false ->
    has_byte "&" v = false ->
    extractAssetFromPath (p ++ "asset=" ++ v) = v
    /\ extractAssetFromPath (p ++ "asset=" ++ v ++ "&" ++ rest) = v.
Proof.
  intros p v rest Hp Hv Hamp. unfold extractAssetFromPath, strings.Split. split.
  - rewrite (split_at_asset_key p v "" Hp), (split_from_no_occurrence _ v "" Hv).
    cbn [List.length Nat.ltb Nat.leb nth append]. unfold strings.Index.
    now rewrite (index_amp_none v Hamp).
  - rewrite (split_at_asset_key p (v ++ "&" ++ rest) "" Hp).
    destruct (split_from_through_byte "asset=" "&" rest v "" Hv eq_refl) as (r & tl & E).
    change (v ++ "&" ++ rest) with (v ++ String "&" rest). rewrite E.
    cbn [List.length Nat.ltb Nat.leb nth append]. unfold strings.Index.
    rewrite (index_amp_first v r Hamp). apply substring_app_left.
Qed.

(** X2. Whatever the path, the resource [extractAssetFromPath] returns
    holds no [&]. *)
Theorem extractAssetFromPath_has_no_ampersand :
  forall path : string, has_byte "&" (extractAssetFromPath path) = false.
Proof.
  intros path. unfold extractAssetFromPath.
  destruct (Nat.ltb _ 2); [reflexivity|].
  unfold strings.Index.
  destruct (String.index 0 "&" (nth 1 (strings.Split path "asset=") "")) as [i|] eqn:E.
  - now apply index_amp_cut.
  - now apply index_amp_absent.
Qed.

(** X3. On a path in which [asset=] does not occur, [extractAssetFromPath]
    returns the empty string. *)
Theorem extractAssetFromPath_without_parameter :
  forall path : string,
    Contains path "asset=" = false -> extractAssetFromPath path = "".
Proof.
  intros path H. now apply extractAssetFromPath_no_key.
Qed.

(** X4. [parseJWTClaims] accepts a token exactly when it holds two dots,
    and the claims it then returns are made from the request alone: the
    [sub] claim is what [extractSubFromPath] gives, whatever the token. *)
Theorem parseJWTClaims_counts_dots :
  forall (ctx : httpContext) (token : string) (h : Host),
    parseJWTClaims ctx token h =
      if Nat.eqb (strings.dots token) 2
      then Ok [("sub", extractSubFromPath (requestPath ctx) h)]
      else Err "invalid JWT format".
Proof.
  intros ctx token h. unfold parseJWTClaims.
  destruct (Nat.eqb (strings.dots token) 2) eqn:E.
  - apply Nat.eqb_eq in E. apply Split_three_parts in E. rewrite E. reflexivity.
  - destruct (Nat.eqb (List.length (strings.Split token ".")) 3) eqn:E3; [|reflexivity].
    apply Nat.eqb_eq in E3. apply Split_three_parts in E3.
    apply Nat.eqb_neq in E. contradiction.
Qed.

End IngressParsing.

(** * Witnesses for the parsing properties *)
Section IngressParsingWitnesses.
Import ServerFilter Text.

Lemma extractAssetFromPath_first_parameter_witness :
  extractAssetFromPath "/process?asset=asset-y" = "asset-y"
  /\ extractAssetFromPath "/process?asset=asset-y&trace=1&asset=asset-x" = "asset-y".
Proof.
  exact (extractAssetFromPath_first_parameter
           "/process?" "asset-y" "trace=1&asset=asset-x" eq_refl eq_refl eq_refl).
Defined.

Lemma extractAssetFromPath_without_parameter_witness :
  Contains "/process?resource=asset-x" "asset=" = false
  /\ extractAssetFromPath "/process?resource=asset-x" = "".
Proof.
  split; [reflexivity|].
  exact (extractAssetFromPath_without_parameter "/process?resource=asset-x" eq_refl).
Defined.

End IngressParsingWitnesses.

(** * Every way through the ingress interceptor *)
Section IngressPaths.
Import proxywasm ServerFilter Outcome IngressEnds.

Variable json_Marshal : EvaluationRequest -> result string.
Variable json_Unmarshal : string -> result EvaluationResponse.

Ltac pick_message := cbn [In]; repeat (first [left; reflexivity | right]).

Lemma ingress_headers_end (ctx : httpContext) (n : nat) (e : bool) (h : Host) :
  headers_end json_Marshal ctx h (OnHttpRequestHeaders json_Marshal ctx n e h).
Proof.
  destruct (GetHttpRequestHeader ":path" h) as [path|] eqn:Hp;
    [|unfold OnHttpRequestHeaders; rewrite Hp; constructor].
  destruct (GetHttpRequestHeader ":method" h) as [method|] eqn:Hm;
    [|unfold OnHttpRequestHeaders; rewrite Hp, Hm; constructor].
  destruct (GetHttpRequestHeader "Authorization" h) as [a|] eqn:Ha;
    [|unfold OnHttpRequestHeaders; rewrite Hp, Hm, Ha; constructor; pick_message].
  destruct (strings.HasPrefix a "Bearer ") eqn:Hpre.
  - rewrite (ingress_bearer_request json_Marshal ctx n e h path method a Hp Hm Ha Hpre).
    cbv zeta.
    destruct (negb _); [constructor; pick_message|].
    destruct (json_Marshal (evaluation_request path h)) as [body|msg] eqn:EM;
      [|constructor; pick_message].
    destruct (DispatchHttpCall pdpServiceCluster pdp_call_headers body [] 5000 h)
      as [[id|] h'] eqn:ED.
    + exact (end_dispatched json_Marshal ctx h path method a body id h' Hp Hm Ha EM ED).
    + unfold DispatchHttpCall in ED.
      destruct (existsb _ _); [discriminate|]. injection ED as <-. constructor.
  - unfold OnHttpRequestHeaders. rewrite Hp, Hm, Ha, Hpre.
    destruct (String.eqb a ""); constructor; pick_message.
Qed.

(** X5. Whatever the request, [OnHttpRequestHeaders] changes no request
    header and never resumes, and it ends in one of four ways: it lets the
    request continue and leaves the host as it was; or it pauses and sends
    one 401 with one of four messages (never the one for a missing [sub]
    claim); or it pauses and sends the 403 of a failed policy evaluation;
    or it pauses, sends nothing, and hands the host one call to the cluster
    [sgnl-pdp-service] with the fixed headers and a timeout of 5000 ms,
    keeping in the context the identifier the host gave the call. *)
Theorem ingress_headers_step_effects :
  forall (ctx : httpContext) (n : nat) (e : bool) (h : Host),
    let '(ctx', h', act) := OnHttpRequestHeaders json_Marshal ctx n e h in
    request_headers h' = request_headers h
    /\ resumes h' = resumes h
    /\ ((act = ActionContinue /\ h' = h)
        \/ (act = ActionPause /\ no_dispatch h h'
            /\ exists msg,
                In msg ["Missing Authorization header";
                        "Invalid Authorization header format";
                        "Invalid JWT: invalid JWT format"; "Internal error"]
                /\ terminated_with 401 (unauthorized_body msg) h h')
        \/ (act = ActionPause /\ no_dispatch h h'
            /\ terminated_with 403 (forbidden_body "Policy evaluation failed" "") h h')
        \/ (act = ActionPause
            /\ local_responses h' = local_responses h
            /\ calloutID ctx' = next_callout h
            /\ exists body,
                dispatched h' =
                  (dispatched h
                     ++ [mkHttpCall pdpServiceCluster pdp_call_headers body [] 5000])%list)).
Proof.
  intros ctx n e h. pose proof (ingress_headers_end ctx n e h) as E.
  destruct (OnHttpRequestHeaders json_Marshal ctx n e h) as [[ctx' h'] act].
  inversion E as [c | c msg Hmsg | c | path method a body id h1 Hp Hm Ha EM ED]; subst.
  - repeat split. now left.
  - repeat split. right; left. repeat split. exists msg. repeat split. exact Hmsg.
  - repeat split. right; right; left. repeat split.
  - unfold DispatchHttpCall in ED.
    destruct (existsb _ _); [|discriminate]. injection ED as <- <-.
    repeat split. right; right; right. repeat split. now exists body.
Qed.

(** X6. Whenever [OnHttpRequestHeaders] hands a call to the host, the body
    of the call is the marshalling of one query, made of the principal and
    the resource the context now holds and the action ["call"], and
    neither the principal nor the resource is empty. *)
Theorem ingress_dispatched_query :
  forall (ctx : httpContext) (n : nat) (e : bool) (h : Host),
    let r := OnHttpRequestHeaders json_Marshal ctx n e h in
    dispatched (snd (fst r)) <> dispatched h ->
    principalID (fst (fst r)) <> ""
    /\ assetID (fst (fst r)) <> ""
    /\ exists body,
        json_Marshal (mkEvaluationRequest (mkPrincipal (principalID (fst (fst r))))
                                          [mkQuery (assetID (fst (fst r))) "call"])
          = Ok body
        /\ dispatched (snd (fst r)) =
             (dispatched h
                ++ [mkHttpCall pdpServiceCluster pdp_call_headers body [] 5000])%list.
Proof.
  intros ctx n e h r. subst r. pose proof (ingress_headers_end ctx n e h) as E.
  destruct (OnHttpRequestHeaders json_Marshal ctx n e h) as [[ctx' h'] act].
  cbn [fst snd].
  inversion E as [c | c msg Hmsg | c | path method a body id h1 Hp Hm Ha EM ED]; subst;
    try (intros N; exfalso; apply N; reflexivity).
  intros _. unfold DispatchHttpCall in ED.
  destruct (existsb _ _); [|discriminate]. injection ED as <- <-.
  cbn [principalID assetID set_calloutID set_assetID set_principalID].
  unfold evaluation_request in EM |- *. cbn [Principal_ Queries ID AssetID hd] in EM |- *.
  split; [|split].
  - apply String.eqb_neq, extractSubFromPath_nonempty.
  - destruct (String.eqb (extractAssetFromPath path) "") eqn:EA; [discriminate|].
    now apply String.eqb_neq.
  - exists body. split; [exact EM|reflexivity].
Qed.

(** X7. The callback allows on the literal ["Allow"] only: whenever the
    first decision of the PDP's answer is anything else, the request ends
    with the 403 of a denial carrying that decision's reason, whatever the
    decisions after the first say. *)
Theorem ingress_denies_unless_first_is_allow :
  forall (ctx : httpContext) (nH bs nT : nat) (h : Host) (body : string)
         (resp : EvaluationResponse) (d : Decision) (rest : list Decision),
    GetHttpCallResponseBody 0 bs h = Some body ->
    json_Unmarshal body = Ok resp ->
    Decisions resp = d :: rest ->
    Decision_ d <> "Allow" ->
    let h' := OnHttpCallResponse json_Unmarshal ctx nH bs nT h in
    terminated_with 403 (forbidden_body "Access denied by policy" (Reason d)) h h'
    /\ no_dispatch h h'.
Proof.
  intros ctx nH bs nT h body resp d rest Hb Hu Hd Hn h'. subst h'.
  unfold OnHttpCallResponse. rewrite Hb, Hu, Hd.
  apply String.eqb_neq in Hn. rewrite Hn. cbn [negb].
  exact (forbidden_outcome "Access denied by policy" (Reason d) h).
Qed.

Lemma lookup_app_some (key v : string) (hs l : Headers) :
  lookup key hs = Some v -> lookup key (hs ++ l)%list = Some v.
Proof.
  induction hs as [|[k x] hs IH]; [discriminate|].
  rewrite <- app_comm_cons, !lookup_cons.
  destruct (name_eqb k key); [trivial|exact IH].
Qed.

End IngressPaths.

(** * Witnesses for the ingress paths *)
Section IngressPathsWitnesses.
Import proxywasm ServerFilter Outcome.

Lemma ingress_dispatched_query_witness :
  let r := OnHttpRequestHeaders Sample.Marshal Sample.ingress_ctx 4 true
                                Sample.valid_request in
  dispatched (snd (fst r)) <> dispatched Sample.valid_request
  /\ principalID (fst (fst r)) <> ""
  /\ assetID (fst (fst r)) <> ""
  /\ exists body,
      Sample.Marshal (mkEvaluationRequest (mkPrincipal (principalID (fst (fst r))))
                                          [mkQuery (assetID (fst (fst r))) "call"])
        = Ok body
      /\ dispatched (snd (fst r)) =
           (dispatched Sample.valid_request
              ++ [mkHttpCall pdpServiceCluster pdp_call_headers body [] 5000])%list.
Proof.
  assert (dispatched
            (snd (fst (OnHttpRequestHeaders Sample.Marshal Sample.ingress_ctx 4 true
                                            Sample.valid_request)))
          <> dispatched Sample.valid_request) as N by discriminate.
  split; [exact N|].
  exact (ingress_dispatched_query Sample.Marshal Sample.ingress_ctx 4 true
                                  Sample.valid_request N).
Defined.

(** A first decision spelled [allow] is a denial, even before an [Allow]. *)
Lemma ingress_denies_unless_first_is_allow_witness :
  let h := Sample.awaiting_pdp (Some Fixture.lowercase_body) in
  Fixture.Unmarshal Fixture.lowercase_body
    = Ok (mkEvaluationResponse Fixture.lowercase_first)
  /\ terminated_with 403 (forbidden_body "Access denied by policy" "spelled otherwise") h
       (OnHttpCallResponse Fixture.Unmarshal Sample.awaiting_ctx
                           0 (String.length Fixture.lowercase_body) 0 h).
Proof.
  cbv zeta. split; [reflexivity|].
  refine (proj1 (ingress_denies_unless_first_is_allow
                   Fixture.Unmarshal Sample.awaiting_ctx
                   0 (String.length Fixture.lowercase_body) 0
                   (Sample.awaiting_pdp (Some Fixture.lowercase_body))
                   Fixture.lowercase_body
                   (mkEvaluationResponse Fixture.lowercase_first)
                   (mkDecision "allow" "spelled otherwise") [Sample.allow_x]
                   eq_refl eq_refl eq_refl _)).
  discriminate.
Defined.

End IngressPathsWitnesses.

(** * Every way through the egress interceptor, and on to the ingress one *)
Section EgressPaths.
Import proxywasm ClientFilter Outcome.

Variable json_Unmarshal : string -> result TokenResponse.
Variable json_Marshal : ServerFilter.EvaluationRequest -> result string.

Lemma name_eqb_sym (a b : string) : name_eqb a b = name_eqb b a.
Proof. unfold name_eqb. apply String.eqb_sym. Qed.

Lemma lookup_others_other (key name : string) (hs : Headers) :
  name_eqb key name = false -> lookup key (others name hs) = lookup key hs.
Proof.
  intros H. induction hs as [|[k v] hs IH]; [reflexivity|].
  rewrite others_cons, lookup_cons. destruct (name_eqb k name) eqn:E.
  - assert (name_eqb k key = false) as N.
    { unfold name_eqb in *. apply String.eqb_eq in E. rewrite E, String.eqb_sym. exact H. }
    rewrite N. exact IH.
  - rewrite lookup_cons, IH. reflexivity.
Qed.

(** X9. For a request to service-b ([:authority] one of the two names) the
    headers step asks the issuer for a token for ["service-a"], whatever
    the request holds: when the host accepts the call it pauses, having
    handed the host one fixed call and nothing else; when the host refuses
    the call it lets the request continue without a token and leaves the
    host as it was. *)
Theorem egress_target_request :
  forall (ctx : httpContext) (n : nat) (e : bool) (h : Host) (authority : string),
    GetHttpRequestHeader ":authority" h = Some authority ->
    authority = "service-b:8083" \/ authority = "service-b" ->
    let '(h', act) := OnHttpRequestHeaders ctx n e h in
    (existsb (String.eqb jwtVendingServiceCluster) (upstream_clusters h) = true ->
     act = ActionPause
     /\ dispatched h' =
          (dispatched h
             ++ [mkHttpCall "jwt-vending-service"
                            [(":method", "POST"); (":path", "/token/valid");
                             (":authority", "jwt-vending-service:8081");
                             ("content-type", "application/json")]
                            ("{" ++ quoted "service_id" ++ ":" ++ quoted "service-a" ++ "}")
                            [] 5000])%list
     /\ request_headers h' = request_headers h
     /\ local_responses h' = local_responses h
     /\ resumes h' = resumes h)
    /\ (existsb (String.eqb jwtVendingServiceCluster) (upstream_clusters h) = false ->
        act = ActionContinue /\ h' = h).
Proof.
  intros ctx n e h authority Ha Ht. unfold OnHttpRequestHeaders, DispatchHttpCall.
  rewrite Ha.
  assert (negb (String.eqb authority "service-b:8083")
          && negb (String.eqb authority "service-b") = false) as T
      by (destruct Ht; subst; reflexivity).
  rewrite T.
  destruct (existsb (String.eqb jwtVendingServiceCluster) (upstream_clusters h));
    split; intros E; try discriminate; repeat split.
Qed.

(** X10. On the request headers the issuance callback is idempotent: the
    same outcome delivered a second time leaves the header map as the
    first delivery left it.  Each delivery resumes the request once
    more. *)
Theorem egress_callback_idempotent_on_headers :
  forall (ctx : httpContext) (nH bs nT : nat) (h : Host),
    let once := handleJWTResponse json_Unmarshal ctx nH bs nT h in
    let twice := handleJWTResponse json_Unmarshal ctx nH bs nT once in
    request_headers twice = request_headers once
    /\ resumes twice = S (S (resumes h))
    /\ local_responses twice = local_responses h.
Proof.
  intros ctx nH bs nT h once twice. subst once twice. unfold handleJWTResponse.
  change (GetHttpCallResponseBody 0 bs) with
    (fun x : Host => option_map (substring 0 bs) (call_response_body x)).
  cbv beta.
  destruct (option_map (substring 0 bs) (call_response_body h)) as [body|] eqn:Hb.
  - destruct (json_Unmarshal body) as [resp|] eqn:Hu.
    + destruct (String.eqb (Token resp) "") eqn:Ht.
      * cbn [call_response_body ResumeHttpRequest]. rewrite Hb, Hu, Ht. repeat split.
      * cbn [call_response_body ResumeHttpRequest ReplaceHttpRequestHeader
             with_request_headers].
        rewrite Hb, Hu, Ht. repeat split.
        cbn [request_headers ResumeHttpRequest ReplaceHttpRequestHeader
             with_request_headers].
        unfold others at 1. rewrite filter_app.
        fold (others "Authorization" (others "Authorization" (request_headers h))).
        fold (others "Authorization" [("Authorization", "Bearer " ++ Token resp)]).
        rewrite others_idempotent, others_cons, name_eqb_refl, app_nil_r. reflexivity.
    + cbn [call_response_body ResumeHttpRequest]. rewrite Hb, Hu. repeat split.
  - cbn [call_response_body ResumeHttpRequest]. rewrite Hb. repeat split.
Qed.

(** X11. The token goes through: when the issuance callback has set the
    Authorization header from a non-empty token, the ingress interceptor,
    given the request headers as the callback left them (with [:path] and
    [:method] readable), takes exactly that token and pauses.  A token that
    does not hold two dots gets the 401 for its format; a token that holds
    two dots is dispatched to the PDP once the query is marshalled and the
    host accepts the call. *)
Theorem egress_token_reaches_ingress :
  forall (ectx : httpContext) (ictx : ServerFilter.httpContext) (nH bs nT n : nat)
         (e : bool) (h1 h2 : Host) (body : string) (resp : TokenResponse)
         (path method : string),
    GetHttpCallResponseBody 0 bs h1 = Some body ->
    json_Unmarshal body = Ok resp ->
    Token resp <> "" ->
    GetHttpRequestHeader ":path" h1 = Some path ->
    GetHttpRequestHeader ":method" h1 = Some method ->
    request_headers h2 = request_headers (handleJWTResponse json_Unmarshal ectx nH bs nT h1) ->
    let '(ctx', h2', act) := ServerFilter.OnHttpRequestHeaders json_Marshal ictx n e h2 in
    ServerFilter.jwtToken ctx' = Token resp
    /\ act = ActionPause
    /\ (strings.dots (Token resp) <> 2 ->
        terminated_with 401
          (ServerFilter.unauthorized_body "Invalid JWT: invalid JWT format") h2 h2')
    /\ (strings.dots (Token resp) = 2 ->
        forall body',
          json_Marshal (evaluation_request path h2) = Ok body' ->
          existsb (String.eqb ServerFilter.pdpServiceCluster) (upstream_clusters h2) = true ->
          dispatched h2' =
            (dispatched h2
               ++ [mkHttpCall ServerFilter.pdpServiceCluster ServerFilter.pdp_call_headers
                              body' [] 5000])%list
          /\ local_responses h2' = local_responses h2).
Proof.
  intros ectx ictx nH bs nT n e h1 h2 body resp path method Hb Hu Ht Hp Hm Hh.
  unfold handleJWTResponse in Hh. rewrite Hb, Hu in Hh.
  apply String.eqb_neq in Ht. rewrite Ht in Hh.
  cbn [request_headers ResumeHttpRequest ReplaceHttpRequestHeader with_request_headers] in Hh.
  assert (GetHttpRequestHeader ":path" h2 = Some path) as Hp2.
  { unfold GetHttpRequestHeader in *. rewrite Hh. apply lookup_app_some.
    rewrite lookup_others_other by reflexivity. exact Hp. }
  assert (GetHttpRequestHeader ":method" h2 = Some method) as Hm2.
  { unfold GetHttpRequestHeader in *. rewrite Hh. apply lookup_app_some.
    rewrite lookup_others_other by reflexivity. exact Hm. }
  assert (GetHttpRequestHeader "Authorization" h2 = Some ("Bearer " ++ Token resp)) as Ha2.
  { unfold GetHttpRequestHeader. rewrite Hh.
    rewrite lookup_app_none by apply lookup_others_none.
    rewrite lookup_cons, name_eqb_refl. reflexivity. }
  rewrite (ingress_bearer_request json_Marshal ictx n e h2 path method
             ("Bearer " ++ Token resp) Hp2 Hm2 Ha2 (prefix_app "Bearer " (Token resp))).
  cbv zeta. rewrite TrimPrefix_app.
  destruct (Nat.eqb (List.length (strings.Split (Token resp) ".")) 3) eqn:E3; cbn [negb].
  - apply Nat.eqb_eq, Split_three_parts in E3.
    destruct (json_Marshal (evaluation_request path h2)) as [b|msg] eqn:EM.
    + unfold DispatchHttpCall.
      destruct (existsb (String.eqb ServerFilter.pdpServiceCluster) (upstream_clusters h2))
        eqn:EC.
      * split; [reflexivity|]. split; [reflexivity|]. split; [intros N; contradiction|].
        intros _ body' Hb' _. injection Hb' as <-. split; reflexivity.
      * split; [reflexivity|]. split; [reflexivity|]. split; [intros N; contradiction|].
        intros _ body' _ Hc. discriminate.
    + split; [reflexivity|]. split; [reflexivity|]. split; [intros N; contradiction|].
      intros _ body' Hb'. discriminate.
  - apply Nat.eqb_neq in E3.
    split; [reflexivity|]. split; [reflexivity|].
    split; [intros _; apply unauthorized_outcome|].
    intros D. apply Split_three_parts in D. contradiction.
Qed.

End EgressPaths.

(** * The policy decision service *)
Section PolicyDecisions.
Import ServerFilter PDP Outcome Text.

Variable json_Decode : string -> result EvaluationRequest.

(** X12. [evaluateAccess] answers [Allow] or [Deny] and nothing else, and
    it answers [Allow] exactly for service-a on asset-x and for service-b
    on asset-x and asset-y; an unknown principal or an unknown resource is
    denied. *)
Theorem evaluateAccess_policy :
  forall (principalID assetID : string),
    let d := evaluateAccess principalID assetID in
    (Decision_ d = "Allow" \/ Decision_ d = "Deny")
    /\ (Decision_ d = "Allow" <->
        (principalID = "service-a" /\ assetID = "asset-x")
        \/ (principalID = "service-b" /\ (assetID = "asset-x" \/ assetID = "asset-y"))).
Proof.
  intros p a d. subst d. unfold evaluateAccess, policyRules. cbn [map_get].
  destruct (String.eqb_spec "service-a" p) as [Ea|Na];
    [|destruct (String.eqb_spec "service-b" p) as [Eb|Nb]];
    cbn [map_get];
    destruct (String.eqb_spec "asset-x" a) as [Ex|Nx];
    try destruct (String.eqb_spec "asset-y" a) as [Ey|Ny];
    subst; cbn [Decision_];
    (split; [first [left; reflexivity | right; reflexivity]|]);
    (split; [intros H; first [discriminate H | tauto]
            |intros [[H1 H2]|[H1 [H2|H2]]]; first [reflexivity | congruence]]).
Qed.

Lemma evaluate_queries_map (principalID : string) (queries : list Query) :
  forall decisions,
    evaluate_queries principalID queries decisions
    = (decisions ++ map (decision_for principalID) queries)%list.
Proof.
  induction queries as [|q rest IH]; intros decisions; cbn [evaluate_queries map].
  - now rewrite app_nil_r.
  - assert (decision_for principalID q
            = if String.eqb (AssetID q) ""
              then mkDecision "Deny" "assetId is required"
              else evaluateAccess principalID (AssetID q)) as D by reflexivity.
    rewrite D.
    destruct (String.eqb (AssetID q) ""); rewrite IH, <- app_assoc; reflexivity.
Qed.

(** X13. A POST whose body decodes to a request with a principal and at
    least one query is answered with one decision for each query, in the
    order of the queries: the decision of [evaluateAccess] for the
    principal and the query's resource, or a [Deny] when the query names no
    resource. *)
Theorem pdp_one_decision_per_query :
  forall (body : string) (req : EvaluationRequest),
    json_Decode body = Ok req ->
    ID (Principal_ req) <> "" ->
    Queries req <> [] ->
    exists resp,
      handleEvaluation json_Decode "POST" body = EncodedJSON resp
      /\ Decisions resp = map (decision_for (ID (Principal_ req))) (Queries req)
      /\ List.length (Decisions resp) = List.length (Queries req).
Proof.
  intros body req Hd Hp Hq. unfold handleEvaluation. cbn [String.eqb Ascii.eqb Bool.eqb negb].
  rewrite Hd. apply String.eqb_neq in Hp. rewrite Hp.
  destruct (Queries req) as [|q rest] eqn:EQ; [contradiction|].
  cbn [List.length Nat.eqb]. eexists. split; [reflexivity|].
  cbn [Decisions]. rewrite evaluate_queries_map. cbn [app].
  split; [reflexivity|]. apply length_map.
Qed.

(** X14. The query the ingress interceptor builds always passes the
    checks of the service: when the body decodes to that query, the
    service answers with exactly one decision, the one of [evaluateAccess]
    for the interceptor's principal and resource. *)
Theorem pdp_accepts_ingress_query :
  forall (path : string) (h : proxywasm.Host) (body : string),
    json_Decode body = Ok (evaluation_request path h) ->
    handleEvaluation json_Decode "POST" body =
      EncodedJSON
        (mkEvaluationResponse
           [evaluateAccess (extractSubFromPath path h)
                           (if String.eqb (extractAssetFromPath path) ""
                            then "default-asset" else extractAssetFromPath path)]).
Proof.
  intros path h body Hd. unfold handleEvaluation. cbn [String.eqb Ascii.eqb Bool.eqb negb].
  rewrite Hd. unfold evaluation_request. cbn [Principal_ ID Queries List.length Nat.eqb].
  rewrite extractSubFromPath_nonempty. cbn [evaluate_queries AssetID app].
  destruct (String.eqb (extractAssetFromPath path) "") eqn:EA; [reflexivity|].
  rewrite EA. reflexivity.
Qed.

Lemma default_asset_denied (principalID : string) :
  Decision_ (evaluateAccess principalID "default-asset") = "Deny".
Proof.
  unfold evaluateAccess, policyRules. cbn [map_get].
  destruct (String.eqb "service-a" principalID); [reflexivity|].
  destruct (String.eqb "service-b" principalID); reflexivity.
Qed.

(** X15. A request whose path names no [asset=] is denied whoever asks:
    the interceptor's query then names the resource ["default-asset"],
    which no policy holds, and the service's one decision is a [Deny]. *)
Theorem pdp_denies_request_without_asset :
  forall (path : string) (h : proxywasm.Host) (body : string),
    Contains path "asset=" = false ->
    json_Decode body = Ok (evaluation_request path h) ->
    exists d,
      handleEvaluation json_Decode "POST" body = EncodedJSON (mkEvaluationResponse [d])
      /\ Decision_ d = "Deny".
Proof.
  intros path h body Hc Hd. unfold handleEvaluation. cbn [String.eqb Ascii.eqb Bool.eqb negb].
  rewrite Hd. unfold evaluation_request. cbn [Principal_ ID Queries List.length Nat.eqb].
  rewrite extractSubFromPath_nonempty.
  rewrite (extractAssetFromPath_no_key path Hc).
  cbn [evaluate_queries AssetID app String.eqb Ascii.eqb Bool.eqb].
  eexists. split; [reflexivity|]. apply default_asset_denied.
Qed.

End PolicyDecisions.

(** * The token as service-b reads it *)
Section ServiceBToken.
Import proxywasm ServiceB Text.

Variable json_Marshal : ServerFilter.EvaluationRequest -> result string.

Lemma has_byte_app (d : ascii) (a b : string) :
  has_byte d (a ++ b) = has_byte d a || has_byte d b.
Proof.
  induction a as [|c a IH]; cbn [append has_byte]; [reflexivity|].
  now rewrite IH, orb_assoc.
Qed.

Lemma prefix_byte (d c : ascii) (s : string) :
  String.prefix (String d "") (String c s) = Ascii.eqb c d.
Proof.
  cbn [String.prefix]. rewrite prefix_empty.
  destruct (ascii_dec d c) as [E|N].
  - subst. now rewrite Ascii.eqb_refl.
  - symmetry. apply Ascii.eqb_neq. congruence.
Qed.

Lemma Join_cons (x : string) (l : list string) (sep : string) :
  l <> [] -> Join (x :: l) sep = x ++ sep ++ Join l sep.
Proof. destruct l; [contradiction|reflexivity]. Qed.

(** Splitting at a byte and joining with it gives the string back. *)
Lemma join_split_byte (d : ascii) (s : string) :
  forall cur,
    Join (strings.split_from (String d "") 0 cur s) (String d "") = cur ++ s.
Proof.
  induction s as [|c s IH]; intros cur.
  - cbn. now rewrite string_app_nil.
  - rewrite split_from_cons, prefix_byte. cbn [String.length Nat.sub].
    destruct (Ascii.eqb c d) eqn:E.
    + apply Ascii.eqb_eq in E. subst c.
      rewrite Join_cons, IH; [reflexivity|].
      destruct (split_from_head (String d "") s "") as (r & tl & H).
      rewrite H. discriminate.
    + rewrite IH, string_app_assoc. reflexivity.
Qed.

(** No piece of a split at a byte holds that byte. *)
Lemma split_pieces_without_byte (d : ascii) (s : string) :
  forall cur,
    has_byte d cur = false ->
    Forall (fun piece => has_byte d piece = false)
           (strings.split_from (String d "") 0 cur s).
Proof.
  induction s as [|c s IH]; intros cur H.
  - cbn. now constructor.
  - rewrite split_from_cons, prefix_byte. cbn [String.length Nat.sub].
    destruct (Ascii.eqb c d) eqn:E.
    + constructor; [exact H|now apply IH].
    + apply IH. rewrite has_byte_app, H. cbn [has_byte]. now rewrite E.
Qed.

Lemma split_byte_prefix (d : ascii) (w : string) (p : string) :
  forall cur,
    has_byte d p = false ->
    strings.split_from (String d "") 0 cur (p ++ String d w)
    = (cur ++ p) :: strings.split_from (String d "") 0 "" w.
Proof.
  induction p as [|c p IH]; intros cur H.
  - cbn [append]. rewrite split_from_cons, prefix_byte, Ascii.eqb_refl, string_app_nil.
    reflexivity.
  - cbn [has_byte] in H. apply orb_false_iff in H. destruct H as [Hc Hp].
    cbn [append]. rewrite split_from_cons, prefix_byte, Hc, (IH _ Hp), string_app_assoc.
    reflexivity.
Qed.

Lemma split_without_byte (d : ascii) (s : string) :
  forall cur,
    has_byte d s = false -> strings.split_from (String d "") 0 cur s = [cur ++ s].
Proof.
  induction s as [|c s IH]; intros cur H.
  - cbn. now rewrite string_app_nil.
  - cbn [has_byte] in H. apply orb_false_iff in H. destruct H as [Hc Hs].
    rewrite split_from_cons, prefix_byte, Hc, (IH _ Hs), string_app_assoc. reflexivity.
Qed.

(** What [extractJWT] accepts has the shape [Bearer], one space, a token
    free of spaces. *)
Lemma extractJWT_shape (hs : Headers) (tok : string) :
  extractJWT hs = Ok tok ->
  Header_Get "Authorization" hs = "Bearer " ++ tok /\ has_byte " " tok = false.
Proof.
  unfold extractJWT. cbv zeta.
  destruct (String.eqb (Header_Get "Authorization" hs) ""); [discriminate|].
  pose proof (join_split_byte " " (Header_Get "Authorization" hs) "") as J.
  pose proof (split_pieces_without_byte " " (Header_Get "Authorization" hs) "" eq_refl) as F.
  unfold strings.Split.
  destruct (strings.split_from " " 0 "" (Header_Get "Authorization" hs))
    as [|x [|y [|z parts]]]; cbn [List.length Nat.eqb negb orb nth]; try discriminate.
  destruct (String.eqb x "Bearer") eqn:E; cbn [negb]; [|discriminate].
  intros H. injection H as <-. apply String.eqb_eq in E. subst x.
  cbn [Join append] in J. split; [now symmetry|].
  inversion F as [|? ? _ F']. now inversion F'.
Qed.

Lemma extractJWT_bearer (hs : Headers) (tok : string) :
  Header_Get "Authorization" hs = "Bearer " ++ tok ->
  has_byte " " tok = false ->
  extractJWT hs = Ok tok.
Proof.
  intros H Hs. unfold extractJWT, strings.Split. cbv zeta. rewrite H.
  change ("Bearer " ++ tok) with ("Bearer" ++ String " " tok).
  rewrite (split_byte_prefix " " tok "Bearer" "" eq_refl), (split_without_byte " " tok "" Hs).
  reflexivity.
Qed.

(** X16. [extractJWT] accepts exactly the Authorization values made of
    [Bearer], one space, and a token that holds no space (the empty token
    among them), and returns that token. *)
Theorem extractJWT_accepts :
  forall (hs : Headers) (tok : string),
    extractJWT hs = Ok tok
    <-> Header_Get "Authorization" hs = "Bearer " ++ tok /\ has_byte " " tok = false.
Proof.
  intros hs tok. split.
  - apply extractJWT_shape.
  - intros [H Hs]. now apply extractJWT_bearer.
Qed.

(** X17. The two readers agree: on a request from which service-b would
    read the token [tok], the ingress interceptor (with [:path] and
    [:method] readable) reads the same token. *)
Theorem service_b_token_is_ingress_token :
  forall (ctx : ServerFilter.httpContext) (n : nat) (e : bool) (h : Host)
         (path method tok : string),
    GetHttpRequestHeader ":path" h = Some path ->
    GetHttpRequestHeader ":method" h = Some method ->
    extractJWT (request_headers h) = Ok tok ->
    ServerFilter.jwtToken
      (fst (fst (ServerFilter.OnHttpRequestHeaders json_Marshal ctx n e h))) = tok.
Proof.
  intros ctx n e h path method tok Hp Hm H.
  apply extractJWT_shape in H. destruct H as [H _].
  assert (GetHttpRequestHeader "Authorization" h = Some ("Bearer " ++ tok)) as Ha.
  { unfold Header_Get in H. unfold GetHttpRequestHeader.
    destruct (lookup "Authorization" (request_headers h)) as [v|]; [|discriminate].
    now subst. }
  rewrite (ingress_bearer_request json_Marshal ctx n e h path method ("Bearer " ++ tok)
             Hp Hm Ha (prefix_app "Bearer " tok)).
  cbv zeta. rewrite TrimPrefix_app.
  destruct (negb _); [reflexivity|].
  destruct (json_Marshal _); [|reflexivity].
  destruct (DispatchHttpCall _ _ _ _ _ h) as [[id|] h']; reflexivity.
Qed.

End ServiceBToken.

(** * From the request to the verdict *)
Section EndToEnd.
Import proxywasm ServerFilter PDP Outcome.

Variable json_Marshal : EvaluationRequest -> result string.
Variable json_Decode : string -> result EvaluationRequest.
Variable json_Unmarshal : string -> result EvaluationResponse.

(** X18. The verdict on a request follows the policy table for the
    principal and the resource the interceptor read.  Take a request with a
    Bearer token of two dots whose query is marshalled and dispatched; let
    the service decode the body into that query, and let the interceptor
    parse the service's encoded answer into the answer the service gave.
    Then the callback resumes the request with the three decision headers
    when [evaluateAccess] allows the pair, and ends it with the 403 of a
    denial carrying the reason of [evaluateAccess] when it does not. *)
Theorem ingress_verdict_follows_policy :
  forall (ctx : httpContext) (n : nat) (e : bool) (h : Host)
         (path method a body encoded : string) (resp : EvaluationResponse),
    GetHttpRequestHeader ":path" h = Some path ->
    GetHttpRequestHeader ":method" h = Some method ->
    GetHttpRequestHeader "Authorization" h = Some a ->
    strings.HasPrefix a "Bearer " = true ->
    strings.dots (strings.TrimPrefix a "Bearer ") = 2 ->
    json_Marshal (evaluation_request path h) = Ok body ->
    existsb (String.eqb pdpServiceCluster) (upstream_clusters h) = true ->
    json_Decode body = Ok (evaluation_request path h) ->
    handleEvaluation json_Decode "POST" body = EncodedJSON resp ->
    json_Unmarshal encoded = Ok resp ->
    let r := OnHttpRequestHeaders json_Marshal ctx n e h in
    let h1 := deliver (Some encoded) (snd (fst r)) in
    let h2 := OnHttpCallResponse json_Unmarshal (fst (fst r)) 0 (String.length encoded) 0 h1 in
    let principal := extractSubFromPath path h in
    let asset := AssetID (hd (mkQuery "" "") (Queries (evaluation_request path h))) in
    let d := evaluateAccess principal asset in
    if String.eqb (Decision_ d) "Allow"
    then resumed_once h1 h2
         /\ request_headers h2 =
              (request_headers h ++ decision_headers (Reason d) principal)%list
    else terminated_with 403 (forbidden_body "Access denied by policy" (Reason d)) h1 h2.
Proof.
  intros ctx n e h path method a body encoded resp Hp Hm Ha Hpre Hdots HM HC HD HE HU.
  intros r h1 h2 principal asset d. subst r h1 h2 principal asset d.
  rewrite (ingress_bearer_request json_Marshal ctx n e h path method a Hp Hm Ha Hpre).
  cbv zeta. apply Split_three_parts in Hdots. rewrite Hdots, HM. cbn [Nat.eqb negb].
  unfold DispatchHttpCall. rewrite HC. cbn [fst snd].
  unfold handleEvaluation in HE. cbn [String.eqb Ascii.eqb Bool.eqb negb] in HE.
  rewrite HD in HE. unfold evaluation_request in HE |- *.
  cbn [Principal_ ID Queries List.length Nat.eqb AssetID hd] in HE |- *.
  rewrite extractSubFromPath_nonempty in HE.
  cbn [evaluate_queries AssetID app] in HE.
  set (asset := if String.eqb (extractAssetFromPath path) ""
                then "default-asset" else extractAssetFromPath path) in *.
  assert (String.eqb asset "" = false) as NA.
  { subst asset. destruct (String.eqb (extractAssetFromPath path) "") eqn:EA;
      [reflexivity|exact EA]. }
  rewrite NA in HE. injection HE as <-.
  unfold OnHttpCallResponse, GetHttpCallResponseBody, deliver.
  cbn [call_response_body option_map]. rewrite substring_whole, HU. cbn [Decisions].
  destruct (String.eqb (Decision_ (evaluateAccess (extractSubFromPath path h) asset))
                       "Allow"); cbn [negb].
  - split; [split; reflexivity|].
    cbn [principalID set_calloutID set_assetID set_principalID].
    unfold decision_headers. cbn. rewrite <- !app_assoc. reflexivity.
  - repeat split.
Qed.

End EndToEnd.

(** * The added properties at sample inputs *)
Section MoreWitnesses.
Import proxywasm Outcome.

Lemma egress_target_request_witness :
  let '(h', act) :=
      ClientFilter.OnHttpRequestHeaders Sample.egress_ctx 4 true Sample.to_service_b in
  act = ActionPause /\ List.length (dispatched h') = 1.
Proof.
  pose proof (egress_target_request Sample.egress_ctx 4 true Sample.to_service_b
                                    "service-b:8083" eq_refl (or_introl eq_refl)) as W.
  destruct (ClientFilter.OnHttpRequestHeaders Sample.egress_ctx 4 true Sample.to_service_b)
    as [h' act].
  destruct W as [W _]. destruct (W eq_refl) as (A & D & _).
  split; [exact A|]. rewrite D. reflexivity.
Defined.

(** The sample token, set by the egress callback over a credential of the
    caller's own, is the token the ingress interceptor takes. *)
Lemma egress_token_reaches_ingress_witness :
  let stamped :=
      Sample.token_callback (deliver (Some Sample.token_body) Fixture.with_own_credential) in
  let '(ctx', h2', act) :=
      ServerFilter.OnHttpRequestHeaders Sample.Marshal Sample.ingress_ctx 4 true
        (Sample.idle (request_headers stamped) ["sgnl-pdp-service"]) in
  ServerFilter.jwtToken ctx' = Sample.sample_token
  /\ act = ActionPause
  /\ List.length (dispatched h2') = 1.
Proof.
  cbv zeta.
  pose proof (egress_token_reaches_ingress
                Sample.UnmarshalToken Sample.Marshal Sample.egress_ctx Sample.ingress_ctx
                0 (String.length Sample.token_body) 0 4 true
                (deliver (Some Sample.token_body) Fixture.with_own_credential)
                (Sample.idle
                   (request_headers
                      (Sample.token_callback
                         (deliver (Some Sample.token_body) Fixture.with_own_credential)))
                   ["sgnl-pdp-service"])
                Sample.token_body (ClientFilter.mkTokenResponse Sample.sample_token 300)
                "/process?asset=asset-x" "GET"
                eq_refl eq_refl) as W.
  assert (Sample.sample_token <> "") as N by discriminate.
  specialize (W N eq_refl eq_refl eq_refl).
  destruct (ServerFilter.OnHttpRequestHeaders _ _ _ _ _) as [[ctx' h2'] act].
  destruct W as (T & A & _ & D).
  split; [exact T|]. split; [exact A|].
  destruct (D eq_refl _ eq_refl eq_refl) as (D' & _). rewrite D'. reflexivity.
Defined.

Lemma pdp_one_decision_per_query_witness :
  exists resp,
    PDP.handleEvaluation Fixture.Decode "POST" Fixture.sample_query_body
      = PDP.EncodedJSON resp
    /\ ServerFilter.Decisions resp = [Sample.allow_x].
Proof.
  assert ("service-a" <> "") as N1 by discriminate.
  assert ([ServerFilter.mkQuery "asset-x" "call"] <> []) as N2 by discriminate.
  destruct (pdp_one_decision_per_query Fixture.Decode Fixture.sample_query_body
                                       Fixture.sample_query eq_refl N1 N2)
    as (resp & H & D & _).
  exists resp. split; [exact H|exact D].
Defined.

Lemma pdp_accepts_ingress_query_witness :
  PDP.handleEvaluation Fixture.Decode "POST" Fixture.sample_query_body
  = PDP.EncodedJSON (ServerFilter.mkEvaluationResponse [Sample.allow_x]).
Proof.
  exact (pdp_accepts_ingress_query Fixture.Decode "/process?asset=asset-x"
                                   Sample.valid_request Fixture.sample_query_body eq_refl).
Defined.

Lemma pdp_denies_request_without_asset_witness :
  Text.Contains "/process" "asset=" = false
  /\ exists d,
      PDP.handleEvaluation Fixture.Decode "POST" Fixture.default_query_body
        = PDP.EncodedJSON (ServerFilter.mkEvaluationResponse [d])
      /\ ServerFilter.Decision_ d = "Deny".
Proof.
  split; [reflexivity|].
  exact (pdp_denies_request_without_asset
           Fixture.Decode "/process" Fixture.no_asset_request Fixture.default_query_body
           eq_refl eq_refl).
Defined.

Lemma service_b_token_is_ingress_token_witness :
  ServiceB.extractJWT (request_headers Sample.valid_request) = Ok Sample.sample_token
  /\ ServerFilter.jwtToken
       (fst (fst (ServerFilter.OnHttpRequestHeaders Sample.Marshal Sample.ingress_ctx
                                                    4 true Sample.valid_request)))
     = Sample.sample_token.
Proof.
  split; [reflexivity|].
  exact (service_b_token_is_ingress_token
           Sample.Marshal Sample.ingress_ctx 4 true Sample.valid_request
           "/process?asset=asset-x" "GET" Sample.sample_token eq_refl eq_refl eq_refl).
Defined.

(** The sample request of service-a for asset-x is allowed through. *)
Lemma ingress_verdict_follows_policy_witness :
  let r := ServerFilter.OnHttpRequestHeaders Sample.Marshal Sample.ingress_ctx 4 true
                                             Sample.valid_request in
  let h1 := deliver (Some Sample.allow_body) (snd (fst r)) in
  let h2 := ServerFilter.OnHttpCallResponse Sample.UnmarshalEvaluation (fst (fst r))
              0 (String.length Sample.allow_body) 0 h1 in
  resumed_once h1 h2
  /\ request_headers h2 =
       (request_headers Sample.valid_request
          ++ decision_headers "Service service-a is allowed to access asset-x"
                              "service-a")%list.
Proof.
  exact (ingress_verdict_follows_policy
           Sample.Marshal Fixture.Decode Sample.UnmarshalEvaluation
           Sample.ingress_ctx 4 true Sample.valid_request
           "/process?asset=asset-x" "GET" ("Bearer " ++ Sample.sample_token)
           Fixture.sample_query_body Sample.allow_body
           (ServerFilter.mkEvaluationResponse [Sample.allow_x])
           eq_refl eq_refl eq_refl eq_refl eq_refl eq_refl eq_refl eq_refl eq_refl eq_refl).
Defined.

End MoreWitnesses.

(** * Re-delivery, and a reason with quotes *)
Section Revisions.
Import proxywasm Outcome.

(** C2 at the two terminal samples: the callback delivered again after an
    [Allow] and after a [Deny]. *)
Lemma ingress_redelivery_witness :
  let q := String "034"%char "" in
  terminal Sample.after_allow = true
  /\ (resumed_once Sample.after_allow Sample.after_allow_again
      /\ request_headers Sample.after_allow_again =
           (request_headers Sample.after_allow
              ++ [("X-PDP-Decision", "Allow");
                  ("X-PDP-Reason", "Service service-a is allowed to access asset-x");
                  ("X-Principal-ID", "service-a")])%list)
  /\ terminal Sample.after_deny = true
  /\ terminated_with 403
       (("{" ++ q ++ "error" ++ q ++ ":" ++ q ++ "Access denied by policy" ++ q ++ "," ++ q ++ "pdp_response" ++ q ++ ":{" ++ q ++ "decision" ++ q ++ ":" ++ q ++ "Deny" ++ q ++ "," ++ q ++ "reason" ++ q ++ ":" ++ q)
          ++ "Service service-a is not allowed to access asset-y" ++ q ++ "}}")
       Sample.after_deny Sample.after_deny_again.
Proof.
  cbv zeta. split; [reflexivity|]. split; [|split; [reflexivity|]].
  - pose proof (ingress_callback_has_no_state_guard
                  Sample.UnmarshalEvaluation Sample.awaiting_ctx
                  0 (response_size Sample.after_allow) 0 Sample.after_allow) as W.
    cbv zeta in W. destruct W as (_ & _ & _ & _ & W).
    exact (W Sample.allow_body (ServerFilter.mkEvaluationResponse [Sample.allow_x])
             Sample.allow_x [] eq_refl eq_refl eq_refl eq_refl).
  - pose proof (ingress_callback_has_no_state_guard
                  Sample.UnmarshalEvaluation Sample.awaiting_ctx
                  0 (response_size Sample.after_deny) 0 Sample.after_deny) as W.
    cbv zeta in W. destruct W as (_ & _ & _ & W & _).
    refine (W Sample.deny_body (ServerFilter.mkEvaluationResponse [Sample.deny_y])
              Sample.deny_y [] eq_refl eq_refl eq_refl _).
    discriminate.
Defined.

(** C3 (the code at the failing input). A caller that names itself
    [say "no"] is unknown to the policy; the service denies it with the
    reason [Principal say "no" not found in policy], and the interceptor
    parses that reason back.  The 403 it then sends holds the reason
    between quotes with no escape before the quotes inside it: a reader of
    the string at [pdp_response.reason] gets [Principal say ] and what
    follows it is not the end of the object.  With the escapes that
    [encoding/json] writes, the same place would read as the reason. *)
Theorem ingress_deny_reason_is_not_escaped :
  let q := String "034"%char "" in
  let reason := "Principal say " ++ q ++ "no" ++ q ++ " not found in policy" in
  Unescaped.answer = [ServerFilter.mkDecision "Deny" reason]
  /\ local_responses Unescaped.final =
       [mkLocalResponse 403 [("content-type", "application/json")]
          (("{" ++ q ++ "error" ++ q ++ ":" ++ q ++ "Access denied by policy" ++ q ++ "," ++ q ++ "pdp_response" ++ q ++ ":{" ++ q ++ "decision" ++ q ++ ":" ++ q ++ "Deny" ++ q ++ "," ++ q ++ "reason" ++ q ++ ":" ++ q)
             ++ reason ++ q ++ "}}")
          (-1)]
  /\ Unescaped.spec_json_string (reason ++ q ++ "}}")
     = Some ("Principal say ", "no" ++ q ++ " not found in policy" ++ q ++ "}}")
  /\ "Principal say " <> reason
  /\ Unescaped.spec_json_string (Unescaped.escape reason ++ q ++ "}}")
     = Some (reason, "}}").
Proof.
  cbv zeta. split; [reflexivity|]. split; [reflexivity|]. split; [reflexivity|].
  split; [discriminate|reflexivity].
Qed.

End Revisions.
